(** * Screenly OSE server: scheduling predicate, playlist and ingestion

    A shallow embedding of [server.py] (Python 2): the functions
    [is_active], [get_playlist], [fetch_assets], [validate_uri],
    [prepare_asset], [edit_asset] and [process_asset], with Python
    dictionaries as finite maps, exceptions as an error result and the
    disk and the [assets] table as explicit state.

    Strings are byte strings; the implicit conversions between [str]
    and [unicode] are not modelled, the explicit [decode('UTF-8')] is.
    What the source imports (md5, json, strptime, requests, PIL, the
    settings, the SQL engine's ordering) is a parameter; [urlparse] and
    [posixpath.join] follow the Python 2.7 standard library. The table
    is the list of its rows and SQL statements always execute. *)

From Stdlib Require Import ZArith Ascii String List Lia.
From stdpp Require Import gmap strings list fin_maps.

Open Scope string_scope.

(** ** Python values, exceptions and results *)

(** A naive [datetime.datetime]: its seven fields, in the order of the
    constructor. *)
Record datetime := mk_datetime {
  year : Z; month : Z; day : Z;
  hour : Z; minute : Z; second : Z; microsecond : Z
}.

(** Abbreviation for [datetime(y, mo, d, h, mi)]. *)
Definition datetime5 (y mo d h mi : Z) : datetime := mk_datetime y mo d h mi 0 0.

(** The values that occur in asset dictionaries, form data and rows. *)
Inductive pyval :=
  | PNone
  | PBool (b : bool)
  | PInt (z : Z)
  | PStr (s : string)
  | PDatetime (d : datetime).

Inductive exn :=
  | KeyError (key : string)
  | IndexError
  | TypeError
  | AttributeError
  | ValueError
  | UnicodeError
  | UnboundLocalError (name : string)
  | IOError
  | RequestException
  | Exception (msg : string).

Inductive result (A : Type) :=
  | Ok (a : A)
  | Raise (e : exn).
Arguments Ok {A} a.
Arguments Raise {A} e.

#[global] Instance result_ret : MRet result := @Ok.
#[global] Instance result_bind : MBind result := λ A B f m,
  match m with
  | Ok a => f a
  | Raise e => Raise e
  end.

(** Python truth value of an object ([bool(v)]). *)
Definition truthy (v : pyval) : bool :=
  match v with
  | PNone => false
  | PBool b => b
  | PInt z => negb (z =? 0)%Z
  | PStr s => negb (String.eqb s "")
  | PDatetime _ => true
  end.

(** ** Ordering of datetimes *)

Definition dt_fields (d : datetime) : list Z :=
  [year d; month d; day d; hour d; minute d; second d; microsecond d].

Fixpoint lex_compare (xs ys : list Z) : comparison :=
  match xs, ys with
  | [], [] => Eq
  | [], _ :: _ => Lt
  | _ :: _, [] => Gt
  | x :: xs', y :: ys' =>
      match (x ?= y)%Z with
      | Eq => lex_compare xs' ys'
      | c => c
      end
  end.

(** Naive datetimes compare field by field, most significant first. *)
Definition dt_compare (a b : datetime) : comparison :=
  lex_compare (dt_fields a) (dt_fields b).

Definition dt_lt (a b : datetime) : bool :=
  match dt_compare a b with Lt => true | _ => false end.

Definition dt_gt (a b : datetime) : bool :=
  match dt_compare a b with Gt => true | _ => false end.

(** [v < t] and [v > t] for a datetime [t]: [datetime] refuses to be
    ordered against any other type. *)
Definition py_lt_datetime (v : pyval) (t : datetime) : result bool :=
  match v with
  | PDatetime d => Ok (dt_lt d t)
  | _ => Raise TypeError
  end.

Definition py_gt_datetime (v : pyval) (t : datetime) : result bool :=
  match v with
  | PDatetime d => Ok (dt_gt d t)
  | _ => Raise TypeError
  end.

(** ** Asset dictionaries *)

(** [d[key]]: a missing key raises [KeyError]. *)
Definition getitem (d : gmap string pyval) (key : string) : result pyval :=
  match d !! key with
  | Some v => Ok v
  | None => Raise (KeyError key)
  end.

(** ** The scheduling predicate *)

(** [is_active(asset, at_time=None)]; [now] is what [get_current_time()]
    returns. *)
Definition is_active (now : datetime) (asset : gmap string pyval)
    (at_time : option datetime) : result bool :=
  start_date ← getitem asset "start_date";
  both ← (if truthy start_date then getitem asset "end_date"
          else Ok start_date);
  if negb (truthy both) then Ok false
  else
    let at_time := match at_time with Some t => t | None => now end in
    started ← (s ← getitem asset "start_date"; py_lt_datetime s at_time);
    if started : bool
    then e ← getitem asset "end_date"; py_gt_datetime e at_time
    else Ok false.

(** ** Strings *)

(** The characters [str.strip()] removes: space, tab, newline, vertical
    tab, form feed and carriage return. *)
Definition is_space (c : ascii) : bool :=
  let n := nat_of_ascii c in
  ((n =? 32) || ((9 <=? n) && (n <=? 13)))%nat.

Fixpoint lstrip (s : string) : string :=
  match s with
  | String c s' => if is_space c then lstrip s' else s
  | EmptyString => EmptyString
  end.

Fixpoint rstrip (s : string) : string :=
  match s with
  | String c s' =>
      match rstrip s' with
      | EmptyString => if is_space c then EmptyString else String c EmptyString
      | r => String c r
      end
  | EmptyString => EmptyString
  end.

(** [s.strip()] *)
Definition strip (s : string) : string := rstrip (lstrip s).

(** [needle in hay] for strings. *)
Fixpoint str_contains (needle hay : string) : bool :=
  String.prefix needle hay ||
  match hay with
  | String _ hay' => str_contains needle hay'
  | EmptyString => false
  end.

(** [c in s] for a character. *)
Fixpoint char_in (c : ascii) (s : string) : bool :=
  match s with
  | String d s' => Ascii.eqb c d || char_in c s'
  | EmptyString => false
  end.

(** [s.partition(c)] when [c] occurs in [s]: the text before the first
    [c] and the text after it. *)
Fixpoint split_first (c : ascii) (s : string) : option (string * string) :=
  match s with
  | EmptyString => None
  | String d s' =>
      if Ascii.eqb c d then Some (EmptyString, s')
      else match split_first c s' with
           | Some (before, rest) => Some (String d before, rest)
           | None => None
           end
  end.

(** [s.split(c)[0]] *)
Definition before_first (c : ascii) (s : string) : string :=
  match split_first c s with
  | Some (before, _) => before
  | None => s
  end.

Fixpoint after_last_from (c : ascii) (s acc : string) : string :=
  match s with
  | String d s' =>
      if Ascii.eqb c d then after_last_from c s' s' else after_last_from c s' acc
  | EmptyString => acc
  end.

(** [s.split(c)[-1]] *)
Definition after_last (c : ascii) (s : string) : string := after_last_from c s s.

(** The longest prefix of [s] without a character of [stops]. *)
Fixpoint take_until (stops : string) (s : string) : string :=
  match s with
  | String c s' => if char_in c stops then EmptyString
                   else String c (take_until stops s')
  | EmptyString => EmptyString
  end.

Definition lower_char (c : ascii) : ascii :=
  let n := nat_of_ascii c in
  if ((65 <=? n) && (n <=? 90))%nat then ascii_of_nat (n + 32) else c.

(** [s.lower()] *)
Fixpoint lower (s : string) : string :=
  match s with
  | String c s' => String (lower_char c) (lower s')
  | EmptyString => EmptyString
  end.

Fixpoint str_forallb (p : ascii -> bool) (s : string) : bool :=
  match s with
  | String c s' => p c && str_forallb p s'
  | EmptyString => true
  end.

Definition str_drop (n : nat) (s : string) : string :=
  String.substring n (String.length s - n) s.

(** [posixpath.join(a, b)] *)
Definition path_join (a b : string) : string :=
  if String.prefix "/" b then b
  else if String.eqb a "" || String.eqb (str_drop (String.length a - 1) a) "/"
       then a ++ b
       else a ++ "/" ++ b.

(** ** [urlparse]: scheme and network location

    [validate_uri] reads two components of [urlparse(uri)], [scheme] and
    [netloc]; they are the ones [urlsplit] of the Python 2.7 standard
    library computes, whose steps the definitions below follow. *)

Record SplitResult := mk_split { scheme : string; netloc : string }.

Definition scheme_chars : string :=
  "abcdefghijklmnopqrstuvwxyzABCDEFGHIJKLMNOPQRSTUVWXYZ0123456789+-.".

Definition digits : string := "0123456789".

(** [_splitnetloc(url, 2)], first component: [url[2:delim]] where
    [delim] is the first of [/], [?], [#] from position 2 on. *)
Definition splitnetloc (url : string) : string :=
  take_until "/?#" (str_drop 2 url).

(** The network location of [url] once the scheme is removed; a bracket
    without its partner is an invalid IPv6 URL. *)
Definition parse_netloc (url : string) : result string :=
  if String.eqb (String.substring 0 2 url) "//" then
    let nl := splitnetloc url in
    if (char_in "[" nl && negb (char_in "]" nl))
       || (char_in "]" nl && negb (char_in "[" nl))
    then Raise ValueError
    else Ok nl
  else Ok "".

Definition urlsplit (url : string) : result SplitResult :=
  match split_first ":" url with
  | Some (String c p as before, rest) =>
      if String.eqb before "http" then
        nl ← parse_netloc rest; Ok (mk_split (lower before) nl)
      else if str_forallb (fun c => char_in c scheme_chars) before
              && (String.eqb rest ""
                  || negb (str_forallb (fun c => char_in c digits) rest))
      then nl ← parse_netloc rest; Ok (mk_split (lower before) nl)
      else nl ← parse_netloc url; Ok (mk_split "" nl)
  | _ => nl ← parse_netloc url; Ok (mk_split "" nl)
  end.

(** [urlparse] further splits the path; scheme and netloc are those of
    [urlsplit]. *)
Definition urlparse (url : string) : result SplitResult := urlsplit url.

(** The [hostname] attribute of a parse result: the network location
    without user information and port. *)
Definition hostname (r : SplitResult) : option string :=
  let nl := after_last "@" (netloc r) in
  if char_in "[" nl && char_in "]" nl
  then Some (lower (str_drop 1 (before_first "]" nl)))
  else if char_in ":" nl then Some (lower (before_first ":" nl))
  else if String.eqb nl "" then None
  else Some (lower nl).

(** ** URL verification *)

(** [validate_uri(uri)] *)
Definition validate_uri (uri : string) : result bool :=
  uri_check ← urlparse uri;
  Ok ((String.eqb (scheme uri_check) "http"
       || String.eqb (scheme uri_check) "https")
      && negb (String.eqb (netloc uri_check) "")).


(** ** The world around the server *)

#[global] Instance datetime_eq_dec : EqDecision datetime.
Proof. solve_decision. Defined.

#[global] Instance pyval_eq_dec : EqDecision pyval.
Proof. solve_decision. Defined.

(** What [requests.get] and [requests.head] answer. *)
Record response := mk_response {
  status_code : Z;
  content : string;
  url : string
}.

(** An open file object: its bytes and the read position. *)
Record stream := mk_stream { data : string; pos : nat }.

(** [f.read()]: everything from the position to the end, leaving the
    position at the end. *)
Definition stream_read (f : stream) : string * stream :=
  (str_drop (pos f) (data f), mk_stream (data f) (String.length (data f))).

(** A bottle [request]: the form dictionaries and
    [request.files.file_upload], which bottle gives as an empty string
    when no such file was sent ([None] here). *)
Record request := mk_request {
  POST : gmap string string;
  FORM : gmap string string;
  files_file_upload : option stream
}.

(** What the handlers read from outside and cannot change: the clock of
    [settings.get_current_time], one instant for the time of a request,
    the remote servers, and whether a path can be opened for writing. *)
Record env := mk_env {
  get_current_time : datetime;
  req_get : string -> result response;
  req_head : string -> result response;
  can_open_w : string -> bool
}.

(** Settings and library functions the source imports. *)
Record platform := mk_platform {
  asset_folder : string;                      (* settings.asset_folder *)
  md5_hexdigest : string -> string;           (* md5(s).hexdigest() *)
  decode_utf8 : string -> result string;      (* s.decode('UTF-8') *)
  json_loads : string -> result (gmap string pyval);
  strptime : string -> string -> result datetime;
  date_to_string : datetime -> string;        (* datestring.date_to_string *)
  image_size : string -> result (Z * Z);      (* Image.open(StringIO(s)).size *)
  sql_order_by : string -> list (gmap string pyval) -> list (gmap string pyval)
}.

(** The mutable state: the files on disk and the rows of the [assets]
    table, a row mapping its non-NULL columns to their values. *)
Record state := mk_state {
  files : gmap string string;
  assets_table : list (gmap string pyval)
}.

(** Computations that read and change the state and may raise. *)
Definition M (A : Type) : Type := state -> result A * state.

#[global] Instance M_ret : MRet M := λ A a s, (Ok a, s).
#[global] Instance M_bind : MBind M := λ A B f m s,
  match m s with
  | (Ok a, s') => f a s'
  | (Raise e, s') => (Raise e, s')
  end.

Definition raise {A} (e : exn) : M A := λ s, (Raise e, s).
Definition lift {A} (r : result A) : M A := λ s, (r, s).

(** [with open(path, 'w') as f: f.write(bytes)] *)
Definition write_file (e : env) (path bytes : string) : M unit := λ s,
  if can_open_w e path
  then (Ok tt, mk_state (<[path := bytes]> (files s)) (assets_table s))
  else (Raise IOError, s).

(** What bottle sends back. *)
Inductive reply :=
  | Redirect (location : string)
  | ApiError (error : exn)
  | Message (header message : string).

Section Server.

Variable lib : platform.

(** ** The asset store *)

Definition default_keys : list string :=
  ["asset_id"; "name"; "uri"; "start_date"; "end_date"; "duration"; "mimetype"].

(** [c.execute("SELECT keys FROM assets ORDER BY order_by")] followed by
    [c.fetchall()]: a tuple per row, a NULL column read as [None]. *)
Definition select_assets (keys : list string) (order_by : string) : M (list (list pyval)) :=
  λ s, (Ok ((λ row : gmap string pyval, (λ k, default PNone (row !! k)) <$> keys)
              <$> sql_order_by lib order_by (assets_table s)), s).

(** The inner loop of [fetch_assets]:
    [for i in range(len(keys)): dictionary[keys[i]] = asset[i]],
    from index [i] on. *)
Fixpoint row_to_dict (keys : list string) (i : nat) (asset : list pyval)
    (dictionary : gmap string pyval) : result (gmap string pyval) :=
  match keys with
  | [] => Ok dictionary
  | k :: keys' =>
      match asset !! i with
      | Some v => row_to_dict keys' (S i) asset (<[k := v]> dictionary)
      | None => Raise IndexError
      end
  end.

Fixpoint rows_to_dicts (keys : list string) (rows : list (list pyval))
    (assets : list (gmap string pyval)) : result (list (gmap string pyval)) :=
  match rows with
  | [] => Ok assets
  | asset :: rows' =>
      dictionary ← row_to_dict keys 0 asset ∅;
      rows_to_dicts keys rows' (assets ++ [dictionary])
  end.

(** [fetch_assets(keys=None, order_by="name")] *)
Definition fetch_assets (keys : option (list string)) (order_by : string)
    : M (list (gmap string pyval)) :=
  let keys := match keys with Some ks => ks | None => default_keys end in
  rows ← select_assets keys order_by;
  lift (rows_to_dicts keys rows []).

(** ** The playlist *)

(** [datestring.date_to_string(v)], which formats a datetime. *)
Definition date_to_string_val (v : pyval) : result pyval :=
  match v with
  | PDatetime d => Ok (PStr (date_to_string lib d))
  | _ => Raise AttributeError
  end.

(** The loop of [get_playlist] over the fetched assets. *)
Fixpoint playlist_loop (now : datetime) (assets playlist : list (gmap string pyval))
    : result (list (gmap string pyval)) :=
  match assets with
  | [] => Ok playlist
  | asset :: assets' =>
      active ← is_active now asset None;
      if active : bool then
        s ← getitem asset "start_date" ≫= date_to_string_val;
        let asset := <["start_date" := s]> asset in
        e ← getitem asset "end_date" ≫= date_to_string_val;
        let asset := <["end_date" := e]> asset in
        playlist_loop now assets' (playlist ++ [asset])
      else playlist_loop now assets' playlist
  end.

(** [get_playlist()] *)
Definition get_playlist (e : env) : M (list (gmap string pyval)) :=
  assets ← fetch_assets None "name";
  lift (playlist_loop (get_current_time e) assets []).

(** ** Ingestion *)

(** [data.get(key, '').strip()] *)
Definition get (data : gmap string pyval) (key : string) : result string :=
  match data !! key with
  | None => Ok (strip "")
  | Some (PStr s) => Ok (strip s)
  | Some _ => Raise AttributeError
  end.

(** [request.POST or request.FORM or {}], then the decoded [model]
    field when there is one. *)
Definition request_data (req : request) : result (gmap string pyval) :=
  let data : gmap string string :=
    if bool_decide (POST req = ∅)
    then (if bool_decide (FORM req = ∅) then ∅ else FORM req)
    else POST req in
  match data !! "model" with
  | Some model => json_loads lib model
  | None => Ok (PStr <$> data)
  end.

(** [request.files.file_upload.file] under [try]/[except]: [False]
    ([None] here) when it cannot be read. *)
Definition upload_file (req : request) : option stream := files_file_upload req.

Definition iso_format : string := "%Y-%m-%dT%H:%M:%S".

(** The branch [if get(key): asset[key] = strptime(...) else: asset[key] = ""]
    for [start_date] and [end_date]. *)
Definition parse_date_field (data : gmap string pyval) (key : string)
    (asset : gmap string pyval) : result (gmap string pyval) :=
  v ← get data key;
  if negb (String.eqb v "") then
    v ← get data key;
    d ← strptime lib (before_first "." v) iso_format;
    Ok (<[key := PDatetime d]> asset)
  else Ok (<[key := PStr ""]> asset).

(** The block under [if uri:]: verify, fetch, derive the id. *)
Definition ingest_uri (e : env) (mimetype name uri : string)
    (asset : gmap string pyval) : M (gmap string pyval) :=
  valid ← lift (validate_uri uri);
  if negb valid then
    raise (Exception "Invalid URL. Failed to add asset.")
  else
    file ← lift (if str_contains "image" mimetype
                 then req_get e uri else req_head e uri);
    if (status_code file =? 200)%Z then
      let asset := <["asset_id" := PStr (md5_hexdigest lib (name ++ uri))]> asset in
      mret (<["uri" := PStr uri]> asset)
    else raise (Exception "Could not retrieve file. Check the asset URL.").

(** The block under [if file_upload:]: derive the id from what
    [file_upload.read()] returns, then write what a second
    [file_upload.read()] returns. *)
Definition ingest_upload (e : env) (file_upload : stream)
    (asset : gmap string pyval) : M (gmap string pyval) :=
  let '(bytes, file_upload) := stream_read file_upload in
  let asset := <["asset_id" := PStr (md5_hexdigest lib bytes)]> asset in
  let path := path_join (asset_folder lib) (md5_hexdigest lib bytes) in
  let asset := <["uri" := PStr path]> asset in
  let '(bytes, file_upload) := stream_read file_upload in
  write_file e path bytes ;;
  mret asset.

(** The two statements on [duration]: the video sentinel, then the
    submitted field. *)
Definition set_duration (data : gmap string pyval) (mimetype : string)
    (asset : gmap string pyval) : result (gmap string pyval) :=
  let asset := if str_contains "video" mimetype
               then <["duration" := PStr "N/A"]> asset else asset in
  duration ← get data "duration";
  if negb (String.eqb duration "")
  then duration ← get data "duration";
       Ok (<["duration" := PStr duration]> asset)
  else Ok asset.

(** [prepare_asset(request)] *)
Definition prepare_asset (e : env) (req : request) : M (gmap string pyval) :=
  data ← lift (request_data req);
  name ← lift (get data "name");
  uri ← lift (get data "uri");
  mimetype ← lift (get data "mimetype");
  if negb (String.eqb name "")
     && (negb (String.eqb uri "") || bool_decide (files_file_upload req ≠ None))
     && negb (String.eqb mimetype "")
  then
    name ← lift (get data "name" ≫= decode_utf8 lib);
    mimetype ← lift (get data "mimetype");
    let asset : gmap string pyval :=
      <["mimetype" := PStr mimetype]> (<["name" := PStr name]> ∅) in
    uri ← lift (get data "uri");
    let file_upload := upload_file req in
    if bool_decide (file_upload ≠ None) && str_contains "web" mimetype then
      raise (Exception "Invalid combination. Can't upload a web resource.")
    else if negb (String.eqb uri "") && bool_decide (file_upload ≠ None) then
      raise (Exception "Invalid combination. Can't select both URI and a file.")
    else
      asset ← (if negb (String.eqb uri "")
               then ingest_uri e mimetype name uri asset
               else mret asset);
      asset ← (match file_upload with
               | Some f => ingest_upload e f asset
               | None => mret asset
               end);
      asset ← lift (set_duration data mimetype asset);
      asset ← lift (parse_date_field data "start_date" asset);
      asset ← lift (parse_date_field data "end_date" asset);
      mret asset
  else
    raise (Exception
      "Not enough information provided. Please specify 'name', 'uri', and 'mimetype'.").

(** ** The API edit endpoint *)

(** [del d[key]] *)
Definition delitem (d : gmap string pyval) (key : string) : result (gmap string pyval) :=
  match d !! key with
  | Some _ => Ok (delete key d)
  | None => Raise (KeyError key)
  end.

(** [UPDATE assets SET k1=?, ..., kn=? WHERE asset_id=?] with the keys
    and values of [sets]: the named columns of every row with that id
    take the new values, the other columns and rows stay. *)
Definition sql_update (sets : gmap string pyval) (asset_id : string) : M unit :=
  λ s, (Ok tt,
        mk_state (files s)
          ((λ row : gmap string pyval,
              if bool_decide (row !! "asset_id" = Some (PStr asset_id))
              then sets ∪ row else row) <$> assets_table s)).

(** [INSERT INTO assets (columns) VALUES (values)] *)
Definition sql_insert (row : gmap string pyval) : M unit :=
  λ s, (Ok tt, mk_state (files s) (assets_table s ++ [row])).

(** [edit_asset(asset_id)], the handler of [POST /api/assets/:asset_id]. *)
Definition edit_asset (e : env) (req : request) (asset_id : string)
    : state -> reply * state :=
  λ s,
    match (asset ← prepare_asset e req;
           asset ← lift (delitem asset "asset_id");
           sql_update asset asset_id) s with
    | (Ok _, s') => (Redirect "/", s')
    | (Raise err, s') => (ApiError err, s')
    end.

(** ** The legacy form endpoint *)

(** [request.POST.get(key, '')] *)
Definition post_get (req : request) (key : string) : string :=
  default "" (POST req !! key).

(** [process_asset()], the handler of [POST /process_asset]. The local
    variable [asset_id] is unbound ([None]) until one of the two blocks
    assigns it; [duration] is what the URI block may set before the
    assignment [duration = ""] that precedes the INSERT. *)
Definition process_asset (e : env) (req : request) : M reply :=
  enough ← lift
    (if negb (String.eqb (strip (post_get req "name")) "") then
       if negb (String.eqb (strip (post_get req "uri")) "")
       then Ok (negb (String.eqb (strip (post_get req "mimetype")) ""))
       else match files_file_upload req with
            | Some _ => Ok (negb (String.eqb (strip (post_get req "mimetype")) ""))
            | None => Raise AttributeError
            end
     else Ok false);
  if enough : bool then
    name ← lift (decode_utf8 lib (post_get req "name"));
    let mimetype := strip (post_get req "mimetype") in
    let uri := strip (post_get req "uri") in
    let file_upload := upload_file req in
    if bool_decide (file_upload ≠ None) && str_contains "web" mimetype then
      mret (Message "Ops!" "Invalid combination. Can't upload web resource.")
    else if negb (String.eqb uri "") && bool_decide (file_upload ≠ None) then
      mret (Message "Ops!" "Invalid combination. Can't select both URI and a file.")
    else
      fetched ←
        (if negb (String.eqb uri "") then
           valid ← lift (validate_uri uri);
           if negb valid then
             mret (inl (Message "Ops!" "Invalid URL. Failed to add asset."))
           else
             file ← lift (if str_contains "image" mimetype
                          then req_get e uri else req_head e uri);
             if (status_code file =? 200)%Z then
               let asset_id := md5_hexdigest lib (name ++ uri) in
               (if str_contains "image" mimetype
                then lift (image_size lib (content file)) ;; mret tt
                else mret tt) ;;
               let duration := if str_contains "video" mimetype
                               then Some "N/A" else None in
               mret (inr (Some asset_id, duration))
             else mret (inl (Message "Ops!" "Unable to fetch file."))
         else mret (inr (None, None)));
      match fetched with
      | inl page => mret page
      | inr (asset_id, duration) =>
          '(asset_id, uri) ←
            (match file_upload with
             | Some f =>
                 let '(bytes, f) := stream_read f in
                 let asset_id := md5_hexdigest lib bytes in
                 let local_uri := path_join (asset_folder lib) asset_id in
                 let '(asset_file_input, f) := stream_read f in
                 write_file e local_uri asset_file_input ;;
                 mret (Some asset_id, local_uri)
             | None => mret (asset_id, uri)
             end);
          let start_date := "" in
          let end_date := "" in
          let duration := "" in
          asset_id ← (match asset_id with
                      | Some a => mret a
                      | None => raise (UnboundLocalError "asset_id")
                      end);
          sql_insert
            (<["mimetype" := PStr mimetype]>
             (<["duration" := PStr duration]>
              (<["end_date" := PStr end_date]>
               (<["start_date" := PStr start_date]>
                (<["uri" := PStr uri]>
                 (<["name" := PStr name]>
                  (<["asset_id" := PStr asset_id]> ∅))))))) ;;
          mret (Message "Yay!" ("Added asset (" ++ asset_id ++ ") to the database."))
      end
  else mret (Message "Ops!" "Invalid input.").

End Server.

(** ** The other handlers *)

Section Handlers.

Variable lib : platform.

(** The loop of [get_assets_grouped] over the fetched assets. *)
Fixpoint grouped_loop (now : datetime)
    (assets active inactive : list (gmap string pyval))
    : result (list (gmap string pyval) * list (gmap string pyval)) :=
  match assets with
  | [] => Ok (active, inactive)
  | asset :: assets' =>
      is_on ← is_active now asset None;
      if is_on : bool
      then grouped_loop now assets' (active ++ [asset]) inactive
      else grouped_loop now assets' active (inactive ++ [asset])
  end.

(** [get_assets_grouped()]: the pair holds the lists stored at the keys
    ['active'] and ['inactive']. *)
Definition get_assets_grouped (e : env)
    : M (list (gmap string pyval) * list (gmap string pyval)) :=
  assets ← fetch_assets lib None "name";
  lift (grouped_loop (get_current_time e) assets [] []).

(** The loop of [api_assets]: [asset['is_active'] = is_active(asset)]
    for the assets from position [length flagged] on. *)
Fixpoint api_assets_loop (now : datetime)
    (assets flagged : list (gmap string pyval))
    : result (list (gmap string pyval)) :=
  match assets with
  | [] => Ok flagged
  | asset :: assets' =>
      is_on ← is_active now asset None;
      api_assets_loop now assets' (flagged ++ [<["is_active" := PBool is_on]> asset])
  end.

(** [api_assets()], the handler of [GET /api/assets]: the object it
    hands to [make_json_response]. *)
Definition api_assets (e : env) : M (list (gmap string pyval)) :=
  assets ← fetch_assets lib None "name";
  lift (api_assets_loop (get_current_time e) assets []).

(** [add_asset()], the handler of [POST /api/assets]: the INSERT names
    the keys of the prepared record as columns. *)
Definition add_asset (e : env) (req : request) : state -> reply * state :=
  λ s,
    match (asset ← prepare_asset lib e req; sql_insert asset) s with
    | (Ok _, s') => (Redirect "/", s')
    | (Raise err, s') => (ApiError err, s')
    end.

(** [DELETE FROM assets WHERE asset_id=?] *)
Definition sql_delete (asset_id : string) : M unit :=
  λ s, (Ok tt,
        mk_state (files s)
          (List.filter
             (λ row : gmap string pyval,
                negb (bool_decide (row !! "asset_id" = Some (PStr asset_id))))
             (assets_table s))).

(** [delete_asset(asset_id)], the handler of [GET /delete_asset/:asset_id].
    [can_remove] tells whether [os.remove] succeeds on a path; its
    failure is caught by the bare [except]. *)
Definition delete_asset (can_remove : string -> bool) (asset_id : string)
    : state -> reply * state :=
  λ s,
    let s := (sql_delete asset_id s).2 in
    let local_uri := path_join (asset_folder lib) asset_id in
    match files s !! local_uri with
    | Some _ =>
        if can_remove local_uri
        then (Message "Success!" "Deleted asset.",
              mk_state (delete local_uri (files s)) (assets_table s))
        else (Message "Ops!" "Failed to delete asset.", s)
    | None => (Message "Success!" "Deleted asset.", s)
    end.

Definition form_format : string := "%Y-%m-%d @ %H:%M".

(** [process_schedule()], the handler of [POST /process_schedule]. The
    test ["image" or "web" in asset_mimetype] is the truth value of the
    string ["image"], so the branch that reads the duration is always
    taken and the fetched mimetype is never looked at; reading the
    duration cannot raise. *)
Definition process_schedule (req : request) : M reply :=
  if negb (String.eqb (strip (post_get req "asset")) "")
     && negb (String.eqb (strip (post_get req "start")) "")
     && negb (String.eqb (strip (post_get req "end")) "")
  then
    let asset_id := strip (post_get req "asset") in
    let input_start := strip (post_get req "start") in
    let input_end := strip (post_get req "end") in
    start_date ← lift (strptime lib input_start form_format);
    end_date ← lift (strptime lib input_end form_format);
    let duration :=
      if truthy (PStr "image") then strip (post_get req "duration") else "N/A" in
    sql_update
      (<["duration" := PStr duration]>
       (<["end_date" := PDatetime end_date]>
        (<["start_date" := PDatetime start_date]> ∅))) asset_id ;;
    mret (Message "Yes!" "Successfully scheduled asset.")
  else mret (Message "Ops!" "Failed to process schedule.").

(** [try: value = strptime(text, format) except: value = None] *)
Definition strptime_or_none (text : string) : pyval :=
  match strptime lib text form_format with
  | Ok d => PDatetime d
  | Raise _ => PNone
  end.

(** [update_asset()], the handler of [POST /update_asset]. *)
Definition update_asset (req : request) : M reply :=
  if negb (String.eqb (strip (post_get req "asset_id")) "")
     && negb (String.eqb (strip (post_get req "name")) "")
     && negb (String.eqb (strip (post_get req "uri")) "")
     && negb (String.eqb (strip (post_get req "mimetype")) "")
  then
    let asset_id := strip (post_get req "asset_id") in
    name ← lift (decode_utf8 lib (post_get req "name"));
    let uri := strip (post_get req "uri") in
    let mimetype := strip (post_get req "mimetype") in
    valid ← lift (validate_uri uri);
    if negb valid && negb (str_contains (asset_folder lib) uri) then
      mret (Message "Ops!" "Invalid URL. Failed to update asset.")
    else
      let duration := strip (post_get req "duration") in
      let start_date := strptime_or_none (post_get req "start") in
      let end_date := strptime_or_none (strip (post_get req "end")) in
      sql_update
        (<["mimetype" := PStr mimetype]>
         (<["duration" := PStr duration]>
          (<["uri" := PStr uri]>
           (<["name" := PStr name]>
            (<["duration" := PStr duration]>
             (<["end_date" := end_date]>
              (<["start_date" := start_date]> ∅))))))) asset_id ;;
      mret (Message "Yes!" "Successfully updated asset.")
  else mret (Message "Ops!" "Failed to update asset.").

(** [c.fetchone()] after [SELECT ... FROM assets WHERE asset_id=?]: the
    first row with the id, [None] when there is none. *)
Definition select_by_id (asset_id : string) (table : list (gmap string pyval))
    : option (gmap string pyval) :=
  List.find (λ row : gmap string pyval,
               bool_decide (row !! "asset_id" = Some (PStr asset_id))) table.

(** The branch [if v: date_to_string(v) else: None] of the edit form. *)
Definition display_or_none (v : pyval) : result pyval :=
  if truthy v then date_to_string_val lib v else Ok PNone.

(** The handler of [GET /edit_asset/:asset_id], the second function
    the source names [edit_asset]: the [asset_info] it hands to the
    template. Indexing the [None] of a missing row raises. *)
Definition edit_asset_form (asset_id : string) : M (gmap string pyval) :=
  λ s,
    (match select_by_id asset_id (assets_table s) with
     | None => Raise TypeError
     | Some row =>
         let asset k := default PNone (row !! k) in
         start_date ← display_or_none (asset "start_date");
         end_date ← display_or_none (asset "end_date");
         Ok (<["end_date" := end_date]>
             (<["start_date" := start_date]>
              (<["asset_id" := PStr asset_id]>
               (<["mimetype" := asset "mimetype"]>
                (<["duration" := asset "duration"]>
                 (<["uri" := asset "uri"]>
                  (<["name" := asset "name"]> ∅)))))))
     end, s).

End Handlers.

(** ** Notions used to state the properties *)

(** A schedule boundary is absent when it is null or the empty-string
    sentinel. *)
Definition absent (v : pyval) : Prop := v = PNone ∨ v = PStr "".

(** A boundary as the data model has it: a timestamp or absent. *)
Definition timestamp_or_absent (v : pyval) : Prop :=
  (∃ d, v = PDatetime d) ∨ absent v.

(** An asset that exposes both boundaries with such values. *)
Definition scheduled_record (asset : gmap string pyval) : Prop :=
  ∃ s e, asset !! "start_date" = Some s ∧ asset !! "end_date" = Some e
         ∧ timestamp_or_absent s ∧ timestamp_or_absent e.

(** [is_active(asset)] answered [True]. *)
Definition active (now : datetime) (asset : gmap string pyval) : bool :=
  match is_active now asset None with
  | Ok true => true
  | _ => false
  end.

(** An asset with its two boundaries in display form. *)
Definition display_dates (lib : platform) (asset : gmap string pyval)
    : gmap string pyval :=
  match asset !! "start_date", asset !! "end_date" with
  | Some (PDatetime s), Some (PDatetime e) =>
      <["end_date" := PStr (date_to_string lib e)]>
        (<["start_date" := PStr (date_to_string lib s)]> asset)
  | _, _ => asset
  end.

(** The dictionary [fetch_assets] builds for a row. *)
Definition fetched_dict (keys : list string) (row : gmap string pyval)
    : gmap string pyval :=
  foldl (λ d k, <[k := default PNone (row !! k)]> d) ∅ keys.

(** The host component of a URL as the specification words it: the
    [hostname] of its parse, empty when there is none. *)
Definition host_component (uri : string) : result string :=
  r ← urlparse uri; Ok (default "" (hostname r)).

(** The verification as the specification words it: scheme http or
    https and a non-empty host component. *)
Definition spec_validate_uri (uri : string) : result bool :=
  r ← urlparse uri;
  Ok ((String.eqb (scheme r) "http" || String.eqb (scheme r) "https")
      && negb (String.eqb (default "" (hostname r)) "")).

(** ** A concrete platform and concrete requests *)

(** The digest of this platform is a stand-in that shows what was
    hashed. *)
Definition demo_lib : platform := {|
  asset_folder := "/home/pi/screenly_assets";
  md5_hexdigest := λ s, "md5(" ++ s ++ ")";
  decode_utf8 := Ok;
  json_loads := λ _, Raise ValueError;
  strptime := λ _ _, Raise ValueError;
  date_to_string := λ d, "a date";
  image_size := λ _, Ok (1%Z, 1%Z);
  sql_order_by := λ _ rows, rows
|}.

(** Every remote resource answers 200 and every path can be written. *)
Definition demo_env : env := {|
  get_current_time := datetime5 2013 1 17 9 30;
  req_get := λ uri, Ok (mk_response 200 "bytes" uri);
  req_head := λ uri, Ok (mk_response 200 "" uri);
  can_open_w := λ _, true
|}.

Definition empty_state : state := mk_state ∅ [].

(** The asset of the docstring of [is_active]. *)
Definition wireload_asset : gmap string pyval :=
  <["asset_id" := PStr "4c8dbce552edb5812d3a866cfe5f159d"]>
  (<["mimetype" := PStr "web"]>
   (<["name" := PStr "WireLoad"]>
    (<["end_date" := PDatetime (datetime5 2013 1 19 23 59)]>
     (<["uri" := PStr "http://www.wireload.net"]>
      (<["duration" := PStr "5"]>
       (<["start_date" := PDatetime (datetime5 2013 1 16 0 0)]> ∅)))))).

(** A video by URI with a duration of its own. *)
Definition video_request : request := {|
  POST := <["name" := "clip"]>
          (<["uri" := "http://example.com/clip.mp4"]>
           (<["mimetype" := "video"]>
            (<["duration" := "30"]> ∅)));
  FORM := ∅;
  files_file_upload := None
|}.

(** An uploaded image of three bytes, not yet read. *)
Definition upload_request : request := {|
  POST := <["name" := "logo"]> (<["mimetype" := "image"]> ∅);
  FORM := ∅;
  files_file_upload := Some (mk_stream "abc" 0)
|}.


(** The same video without a duration. *)
Definition plain_video_request : request := {|
  POST := <["name" := "clip"]>
          (<["uri" := "http://example.com/clip.mp4"]>
           (<["mimetype" := "video"]> ∅));
  FORM := ∅;
  files_file_upload := None
|}.

(** Both a URI and an uploaded file. *)
Definition uri_and_file_request : request := {|
  POST := <["name" := "logo"]>
          (<["uri" := "http://wireload.net/logo.png"]>
           (<["mimetype" := "image"]> ∅));
  FORM := ∅;
  files_file_upload := Some (mk_stream "abc" 0)
|}.

(** A second submission of the clip, with other scheduling fields, at a
    time when the remote server is reached through [requests.head]
    only. *)
Definition video_request_again : request := {|
  POST := <["name" := "  clip"]>
          (<["uri" := "http://example.com/clip.mp4 "]>
           (<["mimetype" := "video/mp4"]>
            (<["duration" := "45"]> ∅)));
  FORM := ∅;
  files_file_upload := None
|}.

Definition head_only_env : env := {|
  get_current_time := datetime5 2014 6 1 0 0;
  req_get := λ _, Raise RequestException;
  req_head := λ uri, Ok (mk_response 200 "" uri);
  can_open_w := λ _, false
|}.

(** A legacy form that also carries scheduling fields. *)
Definition legacy_request : request := {|
  POST := <["name" := "clip"]>
          (<["uri" := "http://example.com/clip.mp4"]>
           (<["mimetype" := "video"]>
            (<["duration" := "30"]>
             (<["start_date" := "2013-01-16T00:00:00"]>
              (<["end_date" := "2013-01-19T23:59:00"]> ∅)))));
  FORM := ∅;
  files_file_upload := None
|}.

(** The strings [urlparse] reads as a URL with scheme [sch], case
    ignored, followed by [://] and a network location that is not
    empty and has both or none of the two brackets. *)
Definition absolute_url_with (schemes : list string) (uri : string) : Prop :=
  ∃ sch rest,
    uri = sch ++ "://" ++ rest
    ∧ lower sch ∈ schemes
    ∧ take_until "/?#" rest ≠ ""
    ∧ char_in "[" (take_until "/?#" rest) = char_in "]" (take_until "/?#" rest).

(** The docstring asset without its schedule, and a table that holds
    both in the order of their names. *)
Definition unscheduled_asset : gmap string pyval :=
  <["asset_id" := PStr "0b2f5e1c7a3d4f6e8a9b0c1d2e3f4a5b"]>
  (<["name" := PStr "Unscheduled"]>
   (<["start_date" := PStr ""]> (<["end_date" := PStr ""]> wireload_asset))).

Definition two_asset_state : state :=
  mk_state ∅ [unscheduled_asset; wireload_asset].

(** Where [prepare_asset] writes the upload of a request. *)
Definition upload_path (lib : platform) (req : request) : string :=
  path_join (asset_folder lib)
    (md5_hexdigest lib
       match files_file_upload req with
       | Some f => (stream_read f).1
       | None => ""
       end).

(** The state once the empty file of an upload is on disk. *)
Definition with_upload (lib : platform) (req : request) (st : state) : state :=
  mk_state (<[upload_path lib req := ""]> (files st)) (assets_table st).

(** A platform whose [strptime] knows four texts, two in the format
    of the legacy forms and two in the format of the API. *)
Definition schedule_lib : platform := {|
  asset_folder := asset_folder demo_lib;
  md5_hexdigest := md5_hexdigest demo_lib;
  decode_utf8 := Ok;
  json_loads := λ _, Raise ValueError;
  strptime := λ text format,
    if String.eqb format form_format then
      if String.eqb text "2013-02-01 @ 08:00" then Ok (datetime5 2013 2 1 8 0)
      else if String.eqb text "2013-02-28 @ 20:00" then Ok (datetime5 2013 2 28 20 0)
      else Raise ValueError
    else if String.eqb format iso_format then
      if String.eqb text "2013-02-01T08:00:00" then Ok (datetime5 2013 2 1 8 0)
      else if String.eqb text "2013-02-28T20:00:00" then Ok (datetime5 2013 2 28 20 0)
      else Raise ValueError
    else Raise ValueError;
  date_to_string := date_to_string demo_lib;
  image_size := image_size demo_lib;
  sql_order_by := sql_order_by demo_lib
|}.

(** The schedule form filled in for the docstring asset. *)
Definition schedule_request : request := {|
  POST := <["asset" := "4c8dbce552edb5812d3a866cfe5f159d"]>
          (<["start" := "2013-02-01 @ 08:00"]>
           (<["end" := "2013-02-28 @ 20:00"]>
            (<["duration" := " 7 "]> ∅)));
  FORM := ∅;
  files_file_upload := None
|}.

(** The update form for the same asset, without its dates. *)
Definition update_request : request := {|
  POST := <["asset_id" := "4c8dbce552edb5812d3a866cfe5f159d"]>
          (<["name" := "WireLoad site"]>
           (<["uri" := "http://www.wireload.net"]>
            (<["mimetype" := "web"]>
             (<["duration" := "5"]> ∅))));
  FORM := ∅;
  files_file_upload := None
|}.

(** An uploaded image with a start date that does not parse. *)
Definition misdated_upload_request : request := {|
  POST := <["name" := "logo"]>
          (<["mimetype" := "image"]>
           (<["start_date" := "tomorrow"]> ∅));
  FORM := ∅;
  files_file_upload := Some (mk_stream "abc" 0)
|}.

(** A page by URI with its two dates, as the API sends them. *)
Definition dated_request : request := {|
  POST := <["name" := "WireLoad"]>
          (<["uri" := "http://www.wireload.net"]>
           (<["mimetype" := "web"]>
            (<["duration" := "5"]>
             (<["start_date" := "2013-02-01T08:00:00.000Z"]>
              (<["end_date" := "2013-02-28T20:00:00.000Z"]> ∅)))));
  FORM := ∅;
  files_file_upload := None
|}.

(** A web page sent as a file, with a URI beside it. *)
Definition web_upload_request : request := {|
  POST := <["name" := "page"]>
          (<["uri" := "http://www.wireload.net"]>
           (<["mimetype" := "web"]> ∅));
  FORM := ∅;
  files_file_upload := Some (mk_stream "<html>" 0)
|}.

(** An image by URI, sent without a duration. *)
Definition image_request : request := {|
  POST := <["name" := "logo"]>
          (<["uri" := "http://wireload.net/logo.png"]>
           (<["mimetype" := "image"]> ∅));
  FORM := ∅;
  files_file_upload := None
|}.

(** * Properties *)

(** ** The order on datetimes is a strict total order *)

Lemma lex_compare_refl (xs : list Z) : lex_compare xs xs = Eq.
Proof.
  induction xs as [|x xs IH]; simpl; [reflexivity|].
  now rewrite Z.compare_refl.
Qed.

Lemma lex_compare_antisym (xs ys : list Z) :
  lex_compare ys xs = CompOpp (lex_compare xs ys).
Proof.
  revert ys; induction xs as [|x xs IH]; intros [|y ys]; simpl; try reflexivity.
  rewrite (Z.compare_antisym x y).
  destruct (x ?= y)%Z; simpl; auto.
Qed.

Lemma lex_compare_eq (xs ys : list Z) :
  length xs = length ys → lex_compare xs ys = Eq → xs = ys.
Proof.
  revert ys; induction xs as [|x xs IH]; intros [|y ys]; simpl; try discriminate; auto.
  intros Hlen. destruct (x ?= y)%Z eqn:Hxy; try discriminate.
  apply Z.compare_eq in Hxy. intros Heq. f_equal; auto.
Qed.

Lemma lex_compare_trans (xs ys zs : list Z) :
  lex_compare xs ys = Lt → lex_compare ys zs = Lt → lex_compare xs zs = Lt.
Proof.
  revert ys zs; induction xs as [|x xs IH]; intros [|y ys] [|z zs]; simpl;
    try discriminate; auto.
  destruct (x ?= y)%Z eqn:Hxy, (y ?= z)%Z eqn:Hyz; try discriminate;
    repeat match goal with
    | H : (_ ?= _)%Z = Eq |- _ => apply Z.compare_eq in H; subst
    end;
    intros H1 H2.
  - rewrite Z.compare_refl. eauto.
  - now rewrite Hyz.
  - now rewrite Hxy.
  - rewrite Z.compare_lt_iff in Hxy, Hyz.
    assert (Hxz : (x ?= z)%Z = Lt) by (apply Z.compare_lt_iff; lia).
    now rewrite Hxz.
Qed.

Lemma dt_gt_lt (a b : datetime) : dt_gt a b = dt_lt b a.
Proof.
  unfold dt_gt, dt_lt, dt_compare.
  rewrite (lex_compare_antisym (dt_fields a) (dt_fields b)).
  destruct (lex_compare (dt_fields a) (dt_fields b)); reflexivity.
Qed.

Lemma dt_lt_irrefl (a : datetime) : dt_lt a a = false.
Proof. unfold dt_lt, dt_compare. now rewrite lex_compare_refl. Qed.

Lemma dt_lt_trans (a b c : datetime) :
  dt_lt a b = true → dt_lt b c = true → dt_lt a c = true.
Proof.
  unfold dt_lt, dt_compare. intros Hab Hbc.
  destruct (lex_compare (dt_fields a) (dt_fields b)) eqn:H1; try discriminate.
  destruct (lex_compare (dt_fields b) (dt_fields c)) eqn:H2; try discriminate.
  now rewrite (lex_compare_trans _ _ _ H1 H2).
Qed.

Lemma dt_lt_total (a b : datetime) :
  dt_lt a b = true ∨ a = b ∨ dt_lt b a = true.
Proof.
  unfold dt_lt, dt_compare.
  rewrite (lex_compare_antisym (dt_fields a) (dt_fields b)).
  destruct (lex_compare (dt_fields a) (dt_fields b)) eqn:H; simpl; auto.
  right; left. apply lex_compare_eq in H; [|reflexivity].
  destruct a, b; simpl in H. now inversion H.
Qed.

(** ** The scheduling predicate *)

(** With both boundaries datetimes the two comparisons decide. *)
Lemma is_active_datetimes now asset s e at_time :
  asset !! "start_date" = Some (PDatetime s) →
  asset !! "end_date" = Some (PDatetime e) →
  let t := match at_time with Some t => t | None => now end in
  is_active now asset at_time = Ok (dt_lt s t && dt_lt t e).
Proof.
  intros Hs He t. unfold is_active, getitem. rewrite Hs; simpl. rewrite He; simpl.
  fold t. rewrite dt_gt_lt. destruct (dt_lt s t); reflexivity.
Qed.

(** C1: for an asset whose start_date and end_date are both datetimes,
    [is_active(asset, at_time)] returns true exactly when
    [start_date < at_time < end_date], both inequalities strict; at
    either boundary it returns false. *)
Theorem is_active_iff_strictly_between now asset s e t :
  asset !! "start_date" = Some (PDatetime s) →
  asset !! "end_date" = Some (PDatetime e) →
  is_active now asset (Some t) = Ok (dt_lt s t && dt_lt t e)
  ∧ (is_active now asset (Some t) = Ok true
     ↔ dt_lt s t = true ∧ dt_lt t e = true)
  ∧ is_active now asset (Some s) = Ok false
  ∧ is_active now asset (Some e) = Ok false.
Proof.
  intros Hs He.
  pose proof (λ at_time, is_active_datetimes now asset s e at_time Hs He) as H.
  rewrite !(H (Some _)); simpl.
  split; [reflexivity|]. split.
  - split.
    + intros [= Hb]. now apply andb_true_iff in Hb.
    + intros [-> ->]. reflexivity.
  - rewrite !dt_lt_irrefl. now rewrite andb_false_r.
Qed.

Lemma is_active_iff_strictly_between_witness :
  is_active (datetime5 2013 1 17 9 30) wireload_asset
    (Some (datetime5 2013 1 16 12 0)) = Ok true
  ∧ is_active (datetime5 2013 1 17 9 30) wireload_asset
      (Some (datetime5 2014 1 1 0 0)) = Ok false
  ∧ is_active (datetime5 2013 1 17 9 30) wireload_asset
      (Some (datetime5 2013 1 16 0 0)) = Ok false.
Proof.
  pose proof (is_active_iff_strictly_between (datetime5 2013 1 17 9 30)
                wireload_asset (datetime5 2013 1 16 0 0)
                (datetime5 2013 1 19 23 59)) as H.
  split; [|split].
  - destruct (H (datetime5 2013 1 16 12 0) eq_refl eq_refl) as (E & _). exact E.
  - destruct (H (datetime5 2014 1 1 0 0) eq_refl eq_refl) as (E & _). exact E.
  - destruct (H (datetime5 2013 1 16 0 0) eq_refl eq_refl) as (_ & _ & E & _). exact E.
Defined.

(** An asset record without a [start_date] entry, as
    [fetch_assets(keys=["asset_id", "name", "end_date"])] builds it. *)
Lemma is_active_raises_without_start_date :
  let asset : gmap string pyval :=
    <["asset_id" := PStr "4c8dbce552edb5812d3a866cfe5f159d"]>
      (<["name" := PStr "WireLoad"]>
         (<["end_date" := PDatetime (datetime5 2013 1 19 23 59)]> ∅)) in
  asset !! "start_date" = None
  ∧ is_active (datetime5 2013 1 17 9 30) asset (Some (datetime5 2013 1 16 12 0))
    = Raise (KeyError "start_date")
  ∧ is_active (datetime5 2013 1 17 9 30) asset (Some (datetime5 2013 1 16 12 0))
    ≠ Ok false.
Proof. repeat split. discriminate. Qed.

(** The same with a start but no [end_date] entry. *)
Lemma is_active_raises_without_end_date :
  let asset : gmap string pyval :=
    <["start_date" := PDatetime (datetime5 2013 1 16 0 0)]> ∅ in
  asset !! "end_date" = None
  ∧ is_active (datetime5 2013 1 17 9 30) asset (Some (datetime5 2013 1 16 12 0))
    = Raise (KeyError "end_date").
Proof. split; reflexivity. Qed.

Lemma absent_not_truthy v : absent v → truthy v = false.
Proof. intros [-> | ->]; reflexivity. Qed.

(** A falsy [start_date], or a falsy [end_date] next to any
    [start_date], ends [is_active] at its first test. *)
Lemma is_active_absent now asset at_time :
  (∃ s, asset !! "start_date" = Some s ∧ absent s)
  ∨ (∃ s e, asset !! "start_date" = Some s
            ∧ asset !! "end_date" = Some e ∧ absent e) →
  is_active now asset at_time = Ok false.
Proof.
  intros [(s & Hs & Habs) | (s & e & Hs & He & Habs)];
    unfold is_active, getitem; rewrite Hs; simpl.
  - now rewrite (absent_not_truthy _ Habs); simpl; rewrite (absent_not_truthy _ Habs).
  - destruct (truthy s) eqn:Hts.
    + rewrite He; simpl. now rewrite (absent_not_truthy _ Habs).
    + simpl. now rewrite Hts.
Qed.

(** C4, amended: an asset whose [start_date] entry is null or the empty
    string, or which has both entries with [end_date] null or the empty
    string, is inactive at every time, given or defaulted, and the call
    does not raise. *)
Theorem is_active_false_when_boundary_absent now asset at_time :
  (∃ s, asset !! "start_date" = Some s ∧ absent s)
  ∨ (∃ s e, asset !! "start_date" = Some s
            ∧ asset !! "end_date" = Some e ∧ absent e) →
  is_active now asset at_time = Ok false.
Proof. apply is_active_absent. Qed.

Lemma is_active_false_when_boundary_absent_witness :
  is_active (datetime5 2013 1 17 9 30)
    (<["end_date" := PStr ""]>
       (<["start_date" := PDatetime (datetime5 2013 1 16 0 0)]> ∅))
    (Some (datetime5 2013 1 16 12 0)) = Ok false.
Proof.
  apply is_active_false_when_boundary_absent.
  right. exists (PDatetime (datetime5 2013 1 16 0 0)), (PStr "").
  split; [reflexivity|]. split; [reflexivity|]. right; reflexivity.
Defined.

(** ** The store and the playlist *)

Section Store.

Variable lib : platform.

Lemma row_to_dict_select (row d : gmap string pyval) (keys seen : list string) :
  row_to_dict keys (length seen)
    ((λ k, default PNone (row !! k)) <$> (seen ++ keys)%list) d
  = Ok (foldl (λ d k, <[k := default PNone (row !! k)]> d) d keys).
Proof.
  revert seen d. induction keys as [|k keys IH]; intros seen d; simpl; [reflexivity|].
  rewrite list_lookup_fmap, lookup_app_r, Nat.sub_diag by lia. simpl.
  specialize (IH (seen ++ [k])%list (<[k := default PNone (row !! k)]> d)).
  rewrite length_app, <- app_assoc in IH. simpl in IH.
  rewrite Nat.add_1_r in IH. exact IH.
Qed.

Lemma rows_to_dicts_select (keys : list string) (table acc : list (gmap string pyval)) :
  rows_to_dicts keys
    ((λ row : gmap string pyval, (λ k, default PNone (row !! k)) <$> keys) <$> table) acc
  = Ok (acc ++ (fetched_dict keys <$> table))%list.
Proof.
  revert acc. induction table as [|row table IH]; intros acc; simpl.
  - now rewrite app_nil_r.
  - pose proof (row_to_dict_select row ∅ keys []) as H. simpl in H. rewrite H. simpl.
    rewrite IH, <- app_assoc. reflexivity.
Qed.

(** [fetch_assets] always returns: a dictionary per row, in the order of
    the query, and the state as it was. *)
Lemma fetch_assets_total keys order_by st :
  fetch_assets lib keys order_by st
  = (Ok (fetched_dict (match keys with Some ks => ks | None => default_keys end)
           <$> sql_order_by lib order_by (assets_table st)), st).
Proof.
  unfold fetch_assets, select_assets, lift, mbind, M_bind.
  now rewrite rows_to_dicts_select.
Qed.

Lemma scheduled_record_active now asset :
  scheduled_record asset →
  (active now asset = true
   ∧ is_active now asset None = Ok true
   ∧ ∃ s e, asset !! "start_date" = Some (PDatetime s)
            ∧ asset !! "end_date" = Some (PDatetime e))
  ∨ (active now asset = false ∧ is_active now asset None = Ok false).
Proof.
  intros (s & e & Hs & He & Ts & Te). unfold active.
  destruct Ts as [[ds ->] | Hs'].
  - destruct Te as [[de ->] | He'].
    + rewrite (is_active_datetimes now asset ds de None Hs He).
      destruct (dt_lt ds now && dt_lt now de); [left|right]; eauto 10.
    + right. rewrite is_active_absent; eauto 10.
  - right. rewrite is_active_absent; eauto 10.
Qed.

Lemma playlist_loop_filter now (assets playlist : list (gmap string pyval)) :
  Forall scheduled_record assets →
  playlist_loop lib now assets playlist
  = Ok (playlist ++ (display_dates lib <$> List.filter (active now) assets))%list.
Proof.
  intros Hall. revert playlist.
  induction Hall as [|asset assets Hrec _ IH]; intros playlist; simpl.
  - now rewrite app_nil_r.
  - destruct (scheduled_record_active now asset Hrec)
      as [(Hact & Hia & s & e & Hs & He) | (Hact & Hia)];
      rewrite Hia, Hact; simpl; [|apply IH].
    unfold getitem. rewrite Hs. simpl.
    rewrite lookup_insert_ne, He by discriminate. simpl.
    rewrite IH, <- app_assoc. simpl.
    unfold display_dates at 2. now rewrite Hs, He.
Qed.

Lemma display_dates_other asset key :
  key ≠ "start_date" → key ≠ "end_date" →
  display_dates lib asset !! key = asset !! key.
Proof.
  intros H1 H2. unfold display_dates.
  destruct (asset !! "start_date") as [[]|]; try reflexivity.
  destruct (asset !! "end_date") as [[]|]; try reflexivity.
  now rewrite !lookup_insert_ne by congruence.
Qed.

(** C5: the playlist is the collection the Store returned, filtered by
    [is_active] at the current time, in the Store's order, each kept
    asset carrying its two dates in display form and every other entry
    as fetched; nothing is added or reordered, and the state is not
    changed. *)
Theorem get_playlist_stable_filter e st assets :
  fetch_assets lib None "name" st = (Ok assets, st) →
  Forall scheduled_record assets →
  let kept := List.filter (active (get_current_time e)) assets in
  get_playlist lib e st = (Ok (display_dates lib <$> kept), st)
  ∧ (∀ asset, asset ∈ kept
       ↔ asset ∈ assets ∧ is_active (get_current_time e) asset None = Ok true)
  ∧ kept `sublist_of` assets
  ∧ ∀ key, key ≠ "start_date" → key ≠ "end_date" →
      (λ a : gmap string pyval, a !! key) <$> (display_dates lib <$> kept)
      = (λ a : gmap string pyval, a !! key) <$> kept.
Proof.
  intros Hfetch Hall kept. split; [|split; [|split]].
  - unfold get_playlist, mbind, M_bind. rewrite Hfetch. unfold lift.
    now rewrite (playlist_loop_filter _ _ [] Hall).
  - intros asset. unfold kept. rewrite !list_elem_of_In, filter_In.
    split; intros [Hin Hact]; split; auto.
    + unfold active in Hact.
      destruct (is_active (get_current_time e) asset None) as [[]|]; congruence.
    + unfold active. now rewrite Hact.
  - unfold kept. clear. induction assets as [|a l IH]; simpl; [constructor|].
    destruct (active _ a); now constructor.
  - intros key H1 H2. rewrite <- list_fmap_compose.
    apply list_fmap_ext. intros _ a _. simpl. now apply display_dates_other.
Qed.

End Store.

(** ** Ingestion *)

Lemma substring_zero_length (n : nat) (s : string) : String.substring n 0 s = "".
Proof. revert s; induction n as [|n IH]; intros [|c s]; simpl; auto. Qed.

Lemma str_drop_all (s : string) : str_drop (String.length s) s = "".
Proof. unfold str_drop. now rewrite Nat.sub_diag, substring_zero_length. Qed.

(** A file object that was read to the end has nothing more to give. *)
Lemma stream_read_twice (f : stream) :
  fst (stream_read (snd (stream_read f))) = "".
Proof. unfold stream_read; simpl. apply str_drop_all. Qed.

Lemma stream_read_fresh (bytes : string) :
  fst (stream_read (mk_stream bytes 0)) = bytes.
Proof.
  unfold stream_read, str_drop; simpl. rewrite Nat.sub_0_r.
  induction bytes as [|c s IH]; simpl; [reflexivity|]. now rewrite IH.
Qed.

Lemma eqb_empty_false (s : string) : negb (String.eqb s "") = true ↔ s ≠ "".
Proof.
  rewrite negb_true_iff. split.
  - intros H ->. now rewrite String.eqb_refl in H.
  - intros H. now apply String.eqb_neq.
Qed.

Lemma bind_ok {A B} (m : M A) (k : A → M B) s b s' :
  (m ≫= k) s = (Ok b, s') → ∃ a s1, m s = (Ok a, s1) ∧ k a s1 = (Ok b, s').
Proof.
  unfold mbind, M_bind. destruct (m s) as [[a|err] s1]; [eauto|discriminate].
Qed.

Lemma lift_ok {A} (r : result A) s a s1 :
  lift r s = (Ok a, s1) → r = Ok a ∧ s1 = s.
Proof. unfold lift. now intros [= -> ->]. Qed.

Lemma mret_ok {A} (a b : A) (s s1 : state) :
  (mret a : M A) s = (Ok b, s1) → b = a ∧ s1 = s.
Proof. unfold mret, M_ret. now intros [= -> ->]. Qed.

Lemma result_bind_ok {A B} (r : result A) (k : A → result B) b :
  r ≫= k = Ok b → ∃ a, r = Ok a ∧ k a = Ok b.
Proof. unfold mbind, result_bind. destruct r; [eauto|discriminate]. Qed.

Tactic Notation "bind_inv" hyp(H) "as" ident(x) ident(Hx) :=
  let s1 := fresh "s" in
  apply bind_ok in H as (x & s1 & Hx & H);
  try (apply lift_ok in Hx as [Hx ->]).

Section Ingestion.

Variable lib : platform.

Lemma parse_date_field_ok data key asset asset' :
  parse_date_field lib data key asset = Ok asset' →
  ∃ v, asset' = <[key := v]> asset.
Proof.
  unfold parse_date_field, mbind, result_bind.
  destruct (get data key) as [v|]; [|discriminate].
  destruct (negb (String.eqb v "")).
  - destruct (strptime lib _ _); [|discriminate]. intros [= <-]. eauto.
  - intros [= <-]. eauto.
Qed.

Lemma ingest_uri_ok e mimetype name uri asset st asset' st' :
  ingest_uri lib e mimetype name uri asset st = (Ok asset', st') →
  st' = st
  ∧ validate_uri uri = Ok true
  ∧ asset' = <["uri" := PStr uri]>
               (<["asset_id" := PStr (md5_hexdigest lib (name ++ uri))]> asset).
Proof.
  unfold ingest_uri, mbind, M_bind, lift, raise, mret, M_ret.
  destruct (validate_uri uri) as [[]|]; simpl; try discriminate.
  destruct (if str_contains "image" mimetype then _ else _) as [file|];
    [|discriminate].
  destruct (status_code file =? 200)%Z; [|discriminate].
  intros [= <- <-]. auto.
Qed.

Lemma ingest_upload_ok e f asset st asset' st' :
  ingest_upload lib e f asset st = (Ok asset', st') →
  let asset_id := md5_hexdigest lib (stream_read f).1 in
  let path := path_join (asset_folder lib) asset_id in
  asset' = <["uri" := PStr path]> (<["asset_id" := PStr asset_id]> asset)
  ∧ can_open_w e path = true
  ∧ st' = mk_state (<[path := ""]> (files st)) (assets_table st).
Proof.
  unfold ingest_upload.
  pose proof (stream_read_twice f) as Hagain.
  destruct (stream_read f) as [bytes f1]; simpl in *.
  destruct (stream_read f1) as [bytes' f2]; simpl in *. rewrite Hagain.
  unfold mbind, M_bind, write_file, mret, M_ret.
  destruct (can_open_w e _); [|discriminate].
  intros [= <- <-]. auto.
Qed.

Lemma set_duration_ok data mimetype asset asset' :
  set_duration data mimetype asset = Ok asset' →
  ∃ duration, get data "duration" = Ok duration
    ∧ asset' !! "duration"
      = (if String.eqb duration "" then
           if str_contains "video" mimetype then Some (PStr "N/A")
           else asset !! "duration"
         else Some (PStr duration))
    ∧ ∀ key, key ≠ "duration" → asset' !! key = asset !! key.
Proof.
  unfold set_duration, mbind, result_bind. intros H.
  destruct (get data "duration") as [duration|]; [|discriminate].
  exists duration. split; [reflexivity|].
  destruct (String.eqb duration ""); simpl in H; injection H as <-.
  - destruct (str_contains "video" mimetype).
    + split; [apply lookup_insert_eq|]. intros. now apply lookup_insert_ne.
    + auto.
  - split; [apply lookup_insert_eq|]. intros key Hk.
    rewrite lookup_insert_ne by auto.
    destruct (str_contains "video" mimetype); [now apply lookup_insert_ne|reflexivity].
Qed.

(** What a successful [prepare_asset] read and what it returns. *)
Lemma prepare_asset_ok e req st asset st' :
  prepare_asset lib e req st = (Ok asset, st') →
  ∃ data name uri mimetype name' duration,
    request_data lib req = Ok data
    ∧ get data "name" = Ok name ∧ name ≠ ""
    ∧ get data "uri" = Ok uri
    ∧ get data "mimetype" = Ok mimetype ∧ mimetype ≠ ""
    ∧ decode_utf8 lib name = Ok name'
    ∧ get data "duration" = Ok duration
    ∧ asset !! "name" = Some (PStr name')
    ∧ asset !! "mimetype" = Some (PStr mimetype)
    ∧ asset !! "duration"
      = (if String.eqb duration "" then
           if str_contains "video" mimetype then Some (PStr "N/A") else None
         else Some (PStr duration))
    ∧ is_Some (asset !! "start_date") ∧ is_Some (asset !! "end_date")
    ∧ ((uri ≠ "" ∧ files_file_upload req = None
        ∧ validate_uri uri = Ok true
        ∧ asset !! "asset_id" = Some (PStr (md5_hexdigest lib (name' ++ uri)))
        ∧ asset !! "uri" = Some (PStr uri)
        ∧ st' = st)
       ∨ (uri = "" ∧ ∃ f, files_file_upload req = Some f
          ∧ str_contains "web" mimetype = false
          ∧ let asset_id := md5_hexdigest lib (stream_read f).1 in
            let path := path_join (asset_folder lib) asset_id in
            asset !! "asset_id" = Some (PStr asset_id)
            ∧ asset !! "uri" = Some (PStr path)
            ∧ can_open_w e path = true
            ∧ st' = mk_state (<[path := ""]> (files st)) (assets_table st))).
Proof.
  unfold prepare_asset. intros H.
  bind_inv H as data Hdata. bind_inv H as name Hname.
  bind_inv H as uri Huri. bind_inv H as mimetype Hmime.
  destruct (_ && _ && _) eqn:Hall in H; [|discriminate].
  apply andb_true_iff in Hall as [Hall Hm]. apply andb_true_iff in Hall as [Hn Hsrc].
  apply eqb_empty_false in Hn, Hm.
  bind_inv H as name' Hname'. rewrite Hname in Hname'. simpl in Hname'.
  bind_inv H as mimetype' Hmime'. rewrite Hmime in Hmime'. injection Hmime' as <-.
  bind_inv H as uri' Huri'. rewrite Huri in Huri'. injection Huri' as <-.
  unfold upload_file in H.
  destruct (bool_decide (files_file_upload req ≠ None) && str_contains "web" mimetype)
    eqn:Hweb; [discriminate|].
  destruct (negb (String.eqb uri "") && bool_decide (files_file_upload req ≠ None))
    eqn:Hboth; [discriminate|].
  apply bind_ok in H as (a1 & s1 & H1 & H).
  apply bind_ok in H as (a2 & s2 & H2 & H).
  bind_inv H as a3 H3. bind_inv H as a4 H4. bind_inv H as a5 H5.
  apply mret_ok in H as [-> ->].
  apply set_duration_ok in H3 as (duration & Hdur & Hd3 & Hk3).
  apply parse_date_field_ok in H4 as (v4 & ->).
  apply parse_date_field_ok in H5 as (v5 & ->).
  exists data, name, uri, mimetype, name', duration.
  repeat (split; [assumption|]).
  set (final := <["end_date" := v5]> (<["start_date" := v4]> a3)).
  assert (Hlook : ∀ key, key ≠ "duration" → key ≠ "start_date" → key ≠ "end_date" →
            final !! key = a2 !! key).
  { intros key ? ? ?. unfold final. rewrite !lookup_insert_ne by auto. now apply Hk3. }
  assert (Hdur3 : final !! "duration" = a3 !! "duration").
  { unfold final. now rewrite !lookup_insert_ne by discriminate. }
  assert (Hstart : is_Some (final !! "start_date")).
  { unfold final. rewrite lookup_insert_ne, lookup_insert_eq by discriminate. eauto. }
  assert (Hend : is_Some (final !! "end_date")).
  { unfold final. rewrite lookup_insert_eq. eauto. }
  rewrite Hdur3, Hd3.
  rewrite (Hlook "name"), (Hlook "mimetype"), (Hlook "asset_id"), (Hlook "uri")
    by discriminate.
  clearbody final. clear Hlook Hdur3 Hd3 Hk3.
  destruct (negb (String.eqb uri "")) eqn:Hu.
  - (* a URI was given *)
    apply eqb_empty_false in Hu. simpl in Hboth.
    apply bool_decide_eq_false in Hboth.
    assert (Hnone : files_file_upload req = None).
    { destruct (files_file_upload req); [exfalso; apply Hboth; discriminate|reflexivity]. }
    rewrite Hnone in H2. apply mret_ok in H2 as [-> ->].
    apply ingest_uri_ok in H1 as (-> & Hvalid & ->).
    simplify_map_eq. repeat (split; [reflexivity || assumption|]).
    left. repeat split; auto.
  - (* no URI: there is an upload *)
    apply negb_false_iff, String.eqb_eq in Hu. subst uri.
    apply mret_ok in H1 as [-> ->]. simpl in Hsrc.
    apply bool_decide_eq_true in Hsrc.
    destruct (files_file_upload req) as [f|] eqn:Hf; [|congruence].
    rewrite bool_decide_eq_true_2 in Hweb by discriminate. simpl in Hweb.
    apply ingest_upload_ok in H2 as (-> & Hopen & ->).
    simplify_map_eq. repeat (split; [reflexivity || assumption|]).
    right. split; [reflexivity|]. exists f. repeat split; auto.
Qed.

(** C2, amended: a successful submission whose mimetype contains
    "video" gets the duration "N/A" when its duration field is empty
    after trimming, and the submitted duration, trimmed, otherwise. *)
Theorem video_duration_default_or_submitted e req st asset st' data mimetype duration :
  prepare_asset lib e req st = (Ok asset, st') →
  request_data lib req = Ok data →
  get data "mimetype" = Ok mimetype →
  str_contains "video" mimetype = true →
  get data "duration" = Ok duration →
  asset !! "duration"
  = Some (PStr (if String.eqb duration "" then "N/A" else duration)).
Proof.
  intros H Hdata Hmime Hvideo Hdur.
  apply prepare_asset_ok in H
    as (data' & name & uri & mimetype' & name' & duration' & Hdata' & _ & _ & _
        & Hmime' & _ & _ & Hdur' & _ & _ & Hasset & _).
  rewrite Hdata in Hdata'. injection Hdata' as <-.
  rewrite Hmime in Hmime'. injection Hmime' as <-.
  rewrite Hdur in Hdur'. injection Hdur' as <-.
  rewrite Hasset, Hvideo. now destruct (String.eqb duration "").
Qed.

(** C3: for a successful submission with an uploaded file, not yet
    read, the record's [asset_id] is the digest of the uploaded bytes and
    its [uri] the path [asset_folder/asset_id]; the file written at that
    path, however, is empty, because the bytes went to the first
    [read()], which fed the digest, and the second [read()] had nothing
    left. *)
Theorem prepare_asset_upload_file_empty e req st asset st' bytes :
  prepare_asset lib e req st = (Ok asset, st') →
  files_file_upload req = Some (mk_stream bytes 0) →
  let asset_id := md5_hexdigest lib bytes in
  let path := path_join (asset_folder lib) asset_id in
  asset !! "asset_id" = Some (PStr asset_id)
  ∧ asset !! "uri" = Some (PStr path)
  ∧ files st' !! path = Some ""
  ∧ (bytes ≠ "" → files st' !! path ≠ Some bytes).
Proof.
  intros H Hf asset_id path.
  apply prepare_asset_ok in H
    as (data & name & uri & mimetype & name' & duration & _ & _ & _ & _
        & _ & _ & _ & _ & _ & _ & _ & _ & _ & Hsrc).
  destruct Hsrc as [(_ & Hnone & _) | (_ & f' & Hf' & _ & Hid & Huri & _ & ->)];
    [congruence|].
  rewrite Hf in Hf'. injection Hf' as <-.
  rewrite stream_read_fresh in Hid, Huri |- *. fold asset_id path in Hid, Huri |- *.
  assert (Hw : files (mk_state (<[path := ""]> (files st)) (assets_table st)) !! path
               = Some "") by apply lookup_insert_eq.
  repeat split; auto. rewrite Hw. congruence.
Qed.

(** C7: a submission with a URI field that is not empty once trimmed,
    as the pipeline reads every field, and with an uploaded file, its
    name and mimetype present and the mimetype without "web", is
    refused: [prepare_asset] raises, returns no record and leaves disk
    and table as they were. When the name decodes, the error is the
    one of the URI-and-file check. *)
Theorem prepare_asset_rejects_uri_and_file e req st data f name uri mimetype :
  request_data lib req = Ok data →
  get data "name" = Ok name → name ≠ "" →
  get data "uri" = Ok uri → uri ≠ "" →
  get data "mimetype" = Ok mimetype → mimetype ≠ "" →
  str_contains "web" mimetype = false →
  files_file_upload req = Some f →
  prepare_asset lib e req st
  = (Raise match decode_utf8 lib name with
           | Ok _ => Exception "Invalid combination. Can't select both URI and a file."
           | Raise err => err
           end, st).
Proof.
  intros Hdata Hname Hn Huri Hu Hmime Hm Hweb Hf.
  apply eqb_empty_false in Hn, Hu, Hm.
  unfold prepare_asset, mbind, M_bind, lift, raise, upload_file.
  rewrite Hdata, Hname, Huri, Hmime, Hn, Hu, Hm, Hf. simpl.
  destruct (decode_utf8 lib name) as [name'|err]; [|reflexivity].
  simpl. now rewrite Hweb.
Qed.

(** C8: two successful URI submissions with the same name and the same
    URI, as [get] reads them, get the same [asset_id], the digest of
    the decoded name followed by the URI; nothing else of the
    submissions, of the remote answers or of the state enters it. *)
Theorem asset_id_deterministic e1 e2 req1 req2 st1 st2 a1 a2 st1' st2'
    data1 data2 name uri :
  prepare_asset lib e1 req1 st1 = (Ok a1, st1') →
  prepare_asset lib e2 req2 st2 = (Ok a2, st2') →
  request_data lib req1 = Ok data1 →
  request_data lib req2 = Ok data2 →
  get data1 "name" = Ok name → get data2 "name" = Ok name →
  get data1 "uri" = Ok uri → get data2 "uri" = Ok uri →
  uri ≠ "" →
  a1 !! "asset_id" = a2 !! "asset_id"
  ∧ ∃ name', decode_utf8 lib name = Ok name'
      ∧ a1 !! "asset_id" = Some (PStr (md5_hexdigest lib (name' ++ uri))).
Proof.
  intros H1 H2 Hd1 Hd2 Hn1 Hn2 Hu1 Hu2 Hne.
  apply prepare_asset_ok in H1
    as (d1 & n1 & u1 & m1 & n1' & ? & Hd1' & Hn1' & _ & Hu1' & _ & _ & Hdec1
        & _ & _ & _ & _ & _ & _ & Hsrc1).
  apply prepare_asset_ok in H2
    as (d2 & n2 & u2 & m2 & n2' & ? & Hd2' & Hn2' & _ & Hu2' & _ & _ & Hdec2
        & _ & _ & _ & _ & _ & _ & Hsrc2).
  rewrite Hd1 in Hd1'. injection Hd1' as <-.
  rewrite Hd2 in Hd2'. injection Hd2' as <-.
  rewrite Hn1 in Hn1'. injection Hn1' as <-.
  rewrite Hn2 in Hn2'. injection Hn2' as <-.
  rewrite Hu1 in Hu1'. injection Hu1' as <-.
  rewrite Hu2 in Hu2'. injection Hu2' as <-.
  rewrite Hdec1 in Hdec2. injection Hdec2 as <-.
  destruct Hsrc1 as [(_ & _ & _ & Hid1 & _) | (? & _)]; [|contradiction].
  destruct Hsrc2 as [(_ & _ & _ & Hid2 & _) | (? & _)]; [|contradiction].
  split; [congruence|]. eauto.
Qed.

(** [prepare_asset], when it succeeds, leaves the table alone and
    returns a record with an [asset_id]. *)
Lemma prepare_asset_ok_table e req st asset st' :
  prepare_asset lib e req st = (Ok asset, st') →
  assets_table st' = assets_table st
  ∧ is_Some (asset !! "asset_id")
  ∧ is_Some (asset !! "name") ∧ is_Some (asset !! "mimetype")
  ∧ is_Some (asset !! "uri")
  ∧ is_Some (asset !! "start_date") ∧ is_Some (asset !! "end_date").
Proof.
  intros H.
  apply prepare_asset_ok in H
    as (data & name & uri & mimetype & name' & duration & _ & _ & _ & _
        & _ & _ & _ & _ & Hn & Hm & _ & Hs & He & Hsrc).
  rewrite Hn, Hm.
  destruct Hsrc as [(_ & _ & _ & -> & -> & ->) | (_ & f & _ & _ & -> & -> & _ & ->)];
    simpl; eauto 10.
Qed.

(** C9, amended: when ingestion succeeds, the edit endpoint redirects
    and its UPDATE carries the prepared record without its [asset_id]:
    the [asset_id] column of every stored row is what it was, the rows
    with the id of the request take every entry of the prepared record
    other than [asset_id] (name, mimetype, uri, start_date and end_date
    always, duration only when the record has one), a column the
    record does not carry keeps its stored value, and the other rows
    stay as they were. *)
Theorem edit_asset_keeps_asset_id e req asset_id st asset st1 :
  prepare_asset lib e req st = (Ok asset, st1) →
  let sets := delete "asset_id" asset in
  ∃ st', edit_asset lib e req asset_id st = (Redirect "/", st')
    ∧ files st' = files st1
    ∧ sets !! "asset_id" = None
    ∧ (∀ key, key ∈ ["name"; "mimetype"; "uri"; "start_date"; "end_date"] →
         is_Some (sets !! key))
    ∧ (λ row : gmap string pyval, row !! "asset_id") <$> assets_table st'
      = (λ row : gmap string pyval, row !! "asset_id") <$> assets_table st
    ∧ Forall2 (λ row row' : gmap string pyval,
         if bool_decide (row !! "asset_id" = Some (PStr asset_id))
         then ∀ key, key ≠ "asset_id" →
                row' !! key = match asset !! key with
                              | Some v => Some v
                              | None => row !! key
                              end
         else row' = row)
        (assets_table st) (assets_table st').
Proof.
  intros H sets.
  destruct (prepare_asset_ok_table _ _ _ _ _ H)
    as (Htable & [id Hid] & Hn & Hm & Hu & Hs & He).
  assert (Hsets : sets !! "asset_id" = None) by apply lookup_delete_eq.
  unfold edit_asset, mbind, M_bind, lift, delitem, sql_update.
  rewrite H, Hid. fold sets. eexists. split; [reflexivity|]. simpl.
  split; [reflexivity|]. split; [assumption|]. split; [|split].
  - intros key Hkey. apply list_elem_of_In in Hkey. simpl in Hkey.
    unfold sets.
    repeat (destruct Hkey as [<-|Hkey];
            [now rewrite lookup_delete_ne by discriminate|]).
    contradiction.
  - rewrite Htable, <- list_fmap_compose. apply list_fmap_ext.
    intros _ row _. simpl.
    destruct (bool_decide (row !! "asset_id" = Some (PStr asset_id))); [|reflexivity].
    now rewrite lookup_union_r.
  - rewrite Htable. apply Forall2_fmap_r, Forall_Forall2_diag, Forall_forall.
    intros row _. unfold compose. cbv beta.
    destruct (bool_decide (row !! "asset_id" = Some (PStr asset_id))); [|reflexivity].
    intros key Hkey. rewrite lookup_union. unfold sets.
    rewrite lookup_delete_ne by auto.
    destruct (asset !! key), (row !! key); reflexivity.
Qed.

End Ingestion.

(** ** The theorems on concrete submissions *)

(** Equations between closed terms, by evaluation. *)
Ltac by_vm :=
  lazymatch goal with
  | |- ?x = ?y => exact (eq_refl y <: x = y)
  end.

(** The record and the state that a successful run of [prepare_asset]
    ends with, read off the run. *)
Ltac run_ok H lib e req st :=
  assert (H : prepare_asset lib e req st
              = (Ok match (prepare_asset lib e req st).1 with
                    | Ok asset => asset
                    | Raise _ => ∅
                    end,
                 (prepare_asset lib e req st).2)) by by_vm.

(** A video submitted with the duration "30" keeps "30": the sentinel
    set for the mimetype is replaced by the submitted field. *)
Lemma video_duration_not_forced :
  ∃ asset st',
    prepare_asset demo_lib demo_env video_request empty_state = (Ok asset, st')
    ∧ asset !! "mimetype" = Some (PStr "video")
    ∧ str_contains "video" "video" = true
    ∧ asset !! "duration" = Some (PStr "30")
    ∧ asset !! "duration" ≠ Some (PStr "N/A").
Proof.
  run_ok H demo_lib demo_env video_request empty_state.
  eexists _, _. split; [exact H|].
  repeat split; try by_vm. vm_compute. discriminate.
Qed.

Lemma video_duration_default_or_submitted_witness :
  ∃ asset st',
    prepare_asset demo_lib demo_env plain_video_request empty_state = (Ok asset, st')
    ∧ asset !! "duration" = Some (PStr "N/A").
Proof.
  run_ok H demo_lib demo_env plain_video_request empty_state.
  eexists _, _. split; [exact H|].
  exact (video_duration_default_or_submitted demo_lib demo_env plain_video_request
           empty_state _ _ (PStr <$> POST plain_video_request) "video" ""
           H eq_refl eq_refl eq_refl eq_refl).
Defined.

Lemma prepare_asset_upload_file_empty_witness :
  ∃ asset st',
    prepare_asset demo_lib demo_env upload_request empty_state = (Ok asset, st')
    ∧ asset !! "asset_id" = Some (PStr (md5_hexdigest demo_lib "abc"))
    ∧ asset !! "uri"
      = Some (PStr (path_join (asset_folder demo_lib) (md5_hexdigest demo_lib "abc")))
    ∧ files st' !! path_join (asset_folder demo_lib) (md5_hexdigest demo_lib "abc")
      = Some ""
    ∧ files st' !! path_join (asset_folder demo_lib) (md5_hexdigest demo_lib "abc")
      ≠ Some "abc".
Proof.
  run_ok H demo_lib demo_env upload_request empty_state.
  eexists _, _. split; [exact H|].
  destruct (prepare_asset_upload_file_empty demo_lib demo_env upload_request
              empty_state _ _ "abc" H eq_refl) as (Hid & Huri & Hfile & Hne).
  split; [exact Hid|]. split; [exact Huri|]. split; [exact Hfile|].
  apply Hne. discriminate.
Defined.

Lemma prepare_asset_rejects_uri_and_file_witness :
  prepare_asset demo_lib demo_env uri_and_file_request empty_state
  = (Raise (Exception "Invalid combination. Can't select both URI and a file."),
     empty_state).
Proof.
  apply (prepare_asset_rejects_uri_and_file demo_lib demo_env uri_and_file_request
           empty_state (PStr <$> POST uri_and_file_request) (mk_stream "abc" 0)
           "logo" "http://wireload.net/logo.png" "image");
    [reflexivity | reflexivity | discriminate | reflexivity | discriminate
    | reflexivity | discriminate | reflexivity | reflexivity].
Defined.

Lemma asset_id_deterministic_witness :
  ∃ a1 a2 st1 st2,
    prepare_asset demo_lib demo_env video_request empty_state = (Ok a1, st1)
    ∧ prepare_asset demo_lib head_only_env video_request_again
        (mk_state ∅ [wireload_asset]) = (Ok a2, st2)
    ∧ a1 !! "asset_id" = a2 !! "asset_id".
Proof.
  run_ok H1 demo_lib demo_env video_request empty_state.
  run_ok H2 demo_lib head_only_env video_request_again (mk_state ∅ [wireload_asset]).
  eexists _, _, _, _. split; [exact H1|]. split; [exact H2|].
  refine (proj1 (asset_id_deterministic demo_lib demo_env head_only_env
                   video_request video_request_again empty_state
                   (mk_state ∅ [wireload_asset]) _ _ _ _
                   (PStr <$> POST video_request) (PStr <$> POST video_request_again)
                   "clip" "http://example.com/clip.mp4"
                   H1 H2 eq_refl eq_refl eq_refl eq_refl eq_refl eq_refl _)).
  discriminate.
Defined.

Lemma edit_asset_keeps_asset_id_witness :
  ∃ st',
    edit_asset demo_lib demo_env video_request "4c8dbce552edb5812d3a866cfe5f159d"
      (mk_state ∅ [wireload_asset]) = (Redirect "/", st')
    ∧ (λ row : gmap string pyval, row !! "asset_id") <$> assets_table st'
      = [Some (PStr "4c8dbce552edb5812d3a866cfe5f159d")].
Proof.
  run_ok H demo_lib demo_env video_request (mk_state ∅ [wireload_asset]).
  destruct (edit_asset_keeps_asset_id demo_lib demo_env video_request
              "4c8dbce552edb5812d3a866cfe5f159d" (mk_state ∅ [wireload_asset])
              _ _ H) as (st' & Hedit & _ & _ & _ & Hids & _).
  exists st'. split; [exact Hedit | exact Hids].
Defined.

(** An image edited without a duration: the prepared record has no
    duration entry, so the UPDATE writes the name and the mimetype and
    leaves the duration column, a mutable field, at its stored "5". *)
Lemma edit_asset_keeps_stored_duration :
  let st := mk_state ∅ [wireload_asset] in
  let prepared := prepare_asset demo_lib demo_env image_request st in
  let run := edit_asset demo_lib demo_env image_request
               "4c8dbce552edb5812d3a866cfe5f159d" st in
  match prepared.1 with
  | Ok asset => asset !! "duration" = None
  | Raise _ => False
  end
  ∧ run.1 = Redirect "/"
  ∧ (λ row : gmap string pyval, row !! "name") <$> assets_table run.2
    = [Some (PStr "logo")]
  ∧ (λ row : gmap string pyval, row !! "mimetype") <$> assets_table run.2
    = [Some (PStr "image")]
  ∧ (λ row : gmap string pyval, row !! "duration") <$> assets_table st
    = [Some (PStr "5")]
  ∧ (λ row : gmap string pyval, row !! "duration") <$> assets_table run.2
    = [Some (PStr "5")].
Proof.
  cbv zeta. split; [vm_compute; reflexivity|]. repeat split; by_vm.
Qed.

Lemma get_playlist_stable_filter_witness :
  let unscheduled : gmap string pyval :=
    <["start_date" := PStr ""]> (<["end_date" := PStr ""]> wireload_asset) in
  let st := mk_state ∅ [unscheduled; wireload_asset] in
  get_playlist demo_lib demo_env st
  = (Ok [display_dates demo_lib wireload_asset], st).
Proof.
  intros unscheduled st.
  refine (proj1 (get_playlist_stable_filter demo_lib demo_env st
                   [unscheduled; wireload_asset] eq_refl _)).
  repeat constructor.
  - exists (PStr ""), (PStr ""). repeat split; try reflexivity; right; right; reflexivity.
  - exists (PDatetime (datetime5 2013 1 16 0 0)), (PDatetime (datetime5 2013 1 19 23 59)).
    repeat split; try reflexivity; left; eexists; reflexivity.
Defined.

(** ** The legacy endpoint *)

Ltac destruct_match_in H :=
  match type of H with
  | context [match ?x with _ => _ end] =>
      lazymatch x with
      | context [match _ with _ => _ end] => fail
      | _ => destruct x eqn:?
      end
  end.

Lemma unscheduled_row_inactive (row : gmap string pyval) now at_time :
  row !! "start_date" = Some (PStr "") →
  is_active now row at_time = Ok false
  ∧ is_active now (fetched_dict default_keys row) at_time = Ok false.
Proof.
  intros Hs. split; apply is_active_absent; left;
    exists (PStr ""); (split; [|right; reflexivity]); [assumption|].
  unfold fetched_dict, default_keys. simpl.
  rewrite !lookup_insert_ne by discriminate.
  now rewrite lookup_insert_eq, Hs.
Qed.

(** C10: whatever was submitted, [process_asset] either leaves the table
    as it was, or reports success and appends one row whose start_date,
    end_date and duration are empty strings; that row, as stored and as
    [fetch_assets] reads it back, is inactive at every time. *)
Theorem process_asset_inserts_unscheduled lib e req st r st' :
  process_asset lib e req st = (r, st') →
  (assets_table st' = assets_table st ∧ ∀ msg, r ≠ Ok (Message "Yay!" msg))
  ∨ ∃ row asset_id,
      assets_table st' = (assets_table st ++ [row])%list
      ∧ r = Ok (Message "Yay!" ("Added asset (" ++ asset_id ++ ") to the database."))
      ∧ row !! "asset_id" = Some (PStr asset_id)
      ∧ row !! "start_date" = Some (PStr "")
      ∧ row !! "end_date" = Some (PStr "")
      ∧ row !! "duration" = Some (PStr "")
      ∧ ∀ now at_time,
          is_active now row at_time = Ok false
          ∧ is_active now (fetched_dict default_keys row) at_time = Ok false.
Proof.
  unfold process_asset, mbind, M_bind, lift, raise, mret, M_ret, sql_insert,
    write_file, upload_file.
  intros H.
  repeat destruct_match_in H;
    repeat match goal with
    | E : (_, _) = (_, _) |- _ => injection E as ? ?; subst
    | E : Ok _ = Ok _ |- _ => injection E as ?; subst
    | E : Some _ = Some _ |- _ => injection E as ?; subst
    | E : inl _ = inl _ |- _ => injection E as ?; subst
    | E : inr _ = inr _ |- _ => injection E as ?; subst
    end;
    try discriminate;
    try (left; split; [reflexivity|intros msg; discriminate]).
  all: right; eexists; eexists; simpl; split; [reflexivity|]; split; [reflexivity|].
  all: split; [now simplify_map_eq|].
  all: assert (Hs : ∀ m : gmap string pyval,
         <["mimetype" := PStr (strip (post_get req "mimetype"))]>
           (<["duration" := PStr ""]>
              (<["end_date" := PStr ""]> (<["start_date" := PStr ""]> m)))
         !! "start_date" = Some (PStr ""))
       by (intros m; now simplify_map_eq).
  all: do 3 (split; [now simplify_map_eq|]).
  all: intros clock at_time; apply unscheduled_row_inactive, Hs.
Qed.

Lemma process_asset_inserts_unscheduled_witness :
  ∃ row,
    assets_table (process_asset demo_lib demo_env legacy_request empty_state).2 = [row]
    ∧ row !! "start_date" = Some (PStr "")
    ∧ row !! "end_date" = Some (PStr "")
    ∧ row !! "duration" = Some (PStr "")
    ∧ is_active (datetime5 2013 1 17 9 30) row None = Ok false.
Proof.
  destruct (process_asset demo_lib demo_env legacy_request empty_state)
    as [r st'] eqn:H.
  destruct (process_asset_inserts_unscheduled demo_lib demo_env legacy_request
              empty_state r st' H)
    as [[_ Hno] | (row & asset_id & Htable & _ & _ & Hs & He & Hd & Hinactive)].
  - exfalso. vm_compute in H. injection H as <- <-. exact (Hno _ eq_refl).
  - exists row. simpl. split; [exact Htable|].
    repeat split; try assumption. apply Hinactive.
Defined.

(** ** URL verification *)

Lemma split_first_app c s before rest :
  split_first c s = Some (before, rest) →
  s = before ++ String c rest ∧ char_in c before = false.
Proof.
  revert before. induction s as [|d s IH]; intros before; simpl; [discriminate|].
  destruct (Ascii.eqb c d) eqn:Hcd.
  - intros [= <- <-]. apply Ascii.eqb_eq in Hcd. subst. auto.
  - destruct (split_first c s) as [[b r]|]; [|discriminate].
    intros [= <- <-]. destruct (IH b eq_refl) as [-> Hb].
    simpl. now rewrite Hcd.
Qed.

Lemma split_first_found c before rest :
  char_in c before = false →
  split_first c (before ++ String c rest) = Some (before, rest).
Proof.
  induction before as [|d b IH]; simpl.
  - now rewrite Ascii.eqb_refl.
  - intros H. apply orb_false_iff in H as [Hcd Hb].
    now rewrite Hcd, (IH Hb).
Qed.

Lemma substring_whole (s : string) : String.substring 0 (String.length s) s = s.
Proof. induction s as [|c s IH]; simpl; [reflexivity|]. now rewrite IH. Qed.

Lemma str_drop_two a b s : str_drop 2 (String a (String b s)) = s.
Proof. unfold str_drop. simpl. rewrite Nat.sub_0_r. apply substring_whole. Qed.

Lemma starts_with_slashes s :
  String.eqb (String.substring 0 2 s) "//" = true ↔ ∃ rest, s = "//" ++ rest.
Proof.
  rewrite String.eqb_eq. split.
  - destruct s as [|a [|b r]]; simpl; try discriminate.
    rewrite substring_zero_length. intros [= -> ->]. eauto.
  - intros [rest ->]. simpl. now rewrite substring_zero_length.
Qed.

(** What [parse_netloc] answers after two slashes. *)
Lemma parse_netloc_slashes rest :
  parse_netloc ("//" ++ rest)
  = let nl := take_until "/?#" rest in
    if Bool.eqb (char_in "[" nl) (char_in "]" nl) then Ok nl else Raise ValueError.
Proof.
  unfold parse_netloc, splitnetloc.
  rewrite (proj2 (starts_with_slashes ("//" ++ rest))) by eauto.
  change ("//" ++ rest) with (String "/" (String "/" rest)).
  rewrite str_drop_two. simpl.
  destruct (char_in "[" _), (char_in "]" _); reflexivity.
Qed.

Lemma parse_netloc_nonempty s nl :
  parse_netloc s = Ok nl → nl ≠ "" →
  ∃ rest, s = "//" ++ rest ∧ nl = take_until "/?#" rest
          ∧ char_in "[" nl = char_in "]" nl.
Proof.
  intros H Hne.
  destruct (String.eqb (String.substring 0 2 s) "//") eqn:Hs.
  - apply starts_with_slashes in Hs as [rest ->]. exists rest.
    rewrite parse_netloc_slashes in H. simpl in H.
    destruct (Bool.eqb _ _) eqn:Hb in H; [|discriminate].
    injection H as <-. apply eqb_prop in Hb. auto.
  - unfold parse_netloc in H. rewrite Hs in H. injection H as <-. contradiction.
Qed.

Lemma lower_char_colon c : lower_char c = ":"%char → c = ":"%char.
Proof. destruct c as [[] [] [] [] [] [] [] []]; vm_compute; congruence. Qed.

Lemma lower_char_scheme c :
  char_in (lower_char c) "htps" = true → char_in c scheme_chars = true.
Proof. destruct c as [[] [] [] [] [] [] [] []]; vm_compute; congruence. Qed.

Lemma lower_http_chars sch :
  lower sch = "http" ∨ lower sch = "https" →
  str_forallb (λ c, char_in c scheme_chars) sch = true
  ∧ char_in ":" sch = false
  ∧ sch ≠ "".
Proof.
  assert (Hall : ∀ s, str_forallb (λ c, char_in c "htps") (lower s) = true →
            str_forallb (λ c, char_in c scheme_chars) s = true
            ∧ char_in ":" s = false).
  { induction s as [|c s IH]; cbn [str_forallb lower char_in]; [auto|].
    intros H. apply andb_true_iff in H as [Hc Hs].
    destruct (IH Hs) as [-> ->]. rewrite (lower_char_scheme c Hc).
    split; [reflexivity|]. rewrite orb_false_r.
    destruct (Ascii.eqb ":" c) eqn:E; [|reflexivity].
    apply Ascii.eqb_eq in E. subst c. discriminate. }
  intros H.
  assert (Hl : str_forallb (λ c, char_in c "htps") (lower sch) = true)
    by (destruct H as [-> | ->]; reflexivity).
  destruct (Hall sch Hl) as [? ?]. repeat split; auto.
  intros ->. destruct H; discriminate.
Qed.

(** [urlsplit] on a string of the shape [sch://rest] with an http or
    https scheme. *)
Lemma urlsplit_http sch rest :
  lower sch = "http" ∨ lower sch = "https" →
  urlsplit (sch ++ "://" ++ rest)
  = nl ← parse_netloc ("//" ++ rest); Ok (mk_split (lower sch) nl).
Proof.
  intros H. destruct (lower_http_chars sch H) as (Hchars & Hcolon & Hne).
  unfold urlsplit.
  change (sch ++ "://" ++ rest) with (sch ++ String ":" ("//" ++ rest)).
  rewrite (split_first_found ":" sch ("//" ++ rest) Hcolon).
  destruct sch as [|c p]; [contradiction|].
  destruct (String.eqb (String c p) "http"); [reflexivity|].
  now rewrite Hchars.
Qed.

(** The strings [validate_uri] accepts, by their shape. *)
Lemma validate_uri_shape uri :
  validate_uri uri = Ok true ↔ absolute_url_with ["http"; "https"] uri.
Proof.
  unfold absolute_url_with. split.
  - unfold validate_uri, urlparse. intros H.
    apply result_bind_ok in H as (r & Hsplit & H). injection H as H.
    apply andb_true_iff in H as [Hscheme Hnl].
    apply eqb_empty_false in Hnl.
    assert (Hsch : scheme r = "http" ∨ scheme r = "https").
    { apply orb_true_iff in Hscheme as [E|E]; apply String.eqb_eq in E; auto. }
    clear Hscheme. unfold urlsplit in Hsplit.
    assert (Hnone : ∀ s, (nl ← parse_netloc s; Ok (mk_split "" nl)) = Ok r → False).
    { intros s Hs. apply result_bind_ok in Hs as (nl & _ & [= <-]).
      destruct Hsch; discriminate. }
    assert (Hsome : ∀ before rest,
              split_first ":" uri = Some (before, rest) →
              (nl ← parse_netloc rest; Ok (mk_split (lower before) nl)) = Ok r →
              ∃ sch rest0 : string, uri = sch ++ "://" ++ rest0
                ∧ lower sch ∈ ["http"; "https"]
                ∧ take_until "/?#" rest0 ≠ ""
                ∧ char_in "[" (take_until "/?#" rest0)
                  = char_in "]" (take_until "/?#" rest0)).
    { intros before rest Hsf Hs.
      apply result_bind_ok in Hs as (nl & Hp & [= <-]). simpl in *.
      apply parse_netloc_nonempty in Hp as (rest0 & -> & -> & Hbr); [|assumption].
      apply split_first_app in Hsf as [-> _].
      exists before, rest0. repeat split; auto.
      apply list_elem_of_In. simpl. destruct Hsch as [-> | ->]; auto. }
    destruct (split_first ":" uri) as [[[|c p] rest]|] eqn:Hsf;
      try (exfalso; eapply Hnone; eassumption).
    destruct (String.eqb (String c p) "http"); [eauto|].
    destruct (_ && _); [eauto|].
    exfalso; eapply Hnone; eassumption.
  - intros (sch & rest & -> & Hsch & Hne & Hbr).
    assert (Hsch' : lower sch = "http" ∨ lower sch = "https").
    { apply list_elem_of_In in Hsch. simpl in Hsch.
      destruct Hsch as [<- | [<- | []]]; auto. }
    unfold validate_uri, urlparse.
    rewrite (urlsplit_http sch rest Hsch'), parse_netloc_slashes. simpl.
    rewrite Hbr, eqb_reflx. simpl.
    apply eqb_empty_false in Hne. rewrite Hne.
    destruct Hsch' as [-> | ->]; reflexivity.
Qed.

(** A URL with a port and no host passes the verification. *)
Lemma validate_uri_accepts_empty_host :
  validate_uri "http://:80/logo.png" = Ok true
  ∧ urlparse "http://:80/logo.png" = Ok (mk_split "http" ":80")
  ∧ host_component "http://:80/logo.png" = Ok ""
  ∧ spec_validate_uri "http://:80/logo.png" = Ok false.
Proof. repeat split. Qed.

(** The same for user information without a host. *)
Lemma validate_uri_accepts_user_only :
  validate_uri "https://admin@/logo.png" = Ok true
  ∧ host_component "https://admin@/logo.png" = Ok "".
Proof. split; reflexivity. Qed.

(** C6, amended: [validate_uri] returns true exactly for the strings
    that [urlparse] splits into the scheme http or https and a
    non-empty network location (user information, host and port
    together), that is, the strings [sch://rest] with [sch] http or
    https in any case and [rest] starting with a character other than
    [/], [?] and [#] (the network location having both or none of the
    brackets of an IPv6 address); the two wireload URLs are accepted,
    and "ftp://example.com", "http://" and "hello" are refused. *)
Theorem validate_uri_iff_scheme_and_netloc :
  (∀ uri, validate_uri uri = Ok true
     ↔ ∃ r, urlparse uri = Ok r
            ∧ (scheme r = "http" ∨ scheme r = "https") ∧ netloc r ≠ "")
  ∧ (∀ uri, validate_uri uri = Ok true ↔ absolute_url_with ["http"; "https"] uri)
  ∧ validate_uri "http://wireload.net/logo.png" = Ok true
  ∧ validate_uri "https://wireload.net/logo.png" = Ok true
  ∧ validate_uri "ftp://example.com" = Ok false
  ∧ validate_uri "http://" = Ok false
  ∧ validate_uri "hello" = Ok false.
Proof.
  split; [|split; [exact validate_uri_shape | repeat split]].
  intros uri. unfold validate_uri. split.
  - intros H. apply result_bind_ok in H as (r & Hr & [= H]). exists r.
    apply andb_true_iff in H as [Hs Hn]. apply eqb_empty_false in Hn.
    repeat split; auto.
    apply orb_true_iff in Hs as [E|E]; apply String.eqb_eq in E; auto.
  - intros (r & -> & Hs & Hn). simpl. apply eqb_empty_false in Hn. rewrite Hn.
    destruct Hs as [-> | ->]; reflexivity.
Qed.

(** * Further properties of the handlers *)

(** ** The active window *)

Lemma is_active_true_inv now asset at_time :
  is_active now asset at_time = Ok true →
  let t := match at_time with Some t => t | None => now end in
  ∃ s e, asset !! "start_date" = Some (PDatetime s)
         ∧ asset !! "end_date" = Some (PDatetime e)
         ∧ dt_lt s t = true ∧ dt_lt t e = true.
Proof.
  intros H t. unfold is_active, getitem in H. fold t in H.
  destruct (asset !! "start_date") as [vs|]; [|discriminate]. simpl in H.
  destruct (truthy vs) eqn:Hvs; simpl in H; [|now rewrite Hvs in H].
  destruct (asset !! "end_date") as [ve|]; [|discriminate]. simpl in H.
  destruct (truthy ve); [|discriminate]. simpl in H.
  destruct vs as [| | | |s]; try discriminate. simpl in H.
  destruct (dt_lt s t) eqn:Hst; [|discriminate].
  destruct ve as [| | | |e]; try discriminate. simpl in H.
  rewrite dt_gt_lt in H. injection H as H. eauto 10.
Qed.

(** X1: the times at which an asset is active form an interval: between
    two times at which it is active it is active. *)
Theorem is_active_window_convex now asset t1 t2 t3 :
  is_active now asset (Some t1) = Ok true →
  is_active now asset (Some t3) = Ok true →
  dt_lt t1 t2 = true → dt_lt t2 t3 = true →
  is_active now asset (Some t2) = Ok true.
Proof.
  intros H1 H3 H12 H23.
  apply is_active_true_inv in H1 as (s & e & Hs & He & Hs1 & _).
  apply is_active_true_inv in H3 as (s' & e' & Hs' & He' & _ & H3e).
  rewrite Hs in Hs'. injection Hs' as <-. rewrite He in He'. injection He' as <-.
  rewrite (is_active_datetimes now asset s e (Some t2) Hs He). simpl.
  now rewrite (dt_lt_trans _ _ _ Hs1 H12), (dt_lt_trans _ _ _ H23 H3e).
Qed.

Lemma is_active_window_convex_witness :
  is_active (datetime5 2013 1 17 9 30) wireload_asset
    (Some (datetime5 2013 1 17 0 0)) = Ok true.
Proof.
  apply (is_active_window_convex (datetime5 2013 1 17 9 30) wireload_asset
           (datetime5 2013 1 16 12 0) (datetime5 2013 1 17 0 0)
           (datetime5 2013 1 19 0 0)); reflexivity.
Defined.

(** X2: an asset whose end is not after its start is active at no
    time. *)
Theorem is_active_empty_window now asset s e at_time :
  asset !! "start_date" = Some (PDatetime s) →
  asset !! "end_date" = Some (PDatetime e) →
  dt_lt s e = false →
  is_active now asset at_time = Ok false.
Proof.
  intros Hs He Hse.
  rewrite (is_active_datetimes now asset s e at_time Hs He). f_equal.
  set (t := match at_time with Some t => t | None => now end).
  destruct (dt_lt s t) eqn:H1; [|reflexivity].
  destruct (dt_lt t e) eqn:H2; [|reflexivity].
  now rewrite (dt_lt_trans _ _ _ H1 H2) in Hse.
Qed.

Lemma is_active_empty_window_witness :
  is_active (datetime5 2013 1 17 9 30)
    (<["start_date" := PDatetime (datetime5 2013 1 19 23 59)]>
       (<["end_date" := PDatetime (datetime5 2013 1 16 0 0)]> ∅))
    (Some (datetime5 2013 1 17 0 0)) = Ok false.
Proof.
  apply (is_active_empty_window _ _ (datetime5 2013 1 19 23 59)
           (datetime5 2013 1 16 0 0)); reflexivity.
Defined.

(** X3: an entry of the playlist cannot be tested again: once
    [get_playlist] has put the two dates of an active asset in display
    form, [is_active] on that asset raises [TypeError], whatever the
    time. *)
Theorem is_active_rejects_displayed lib now asset t at_time :
  is_active now asset t = Ok true →
  (∀ d, date_to_string lib d ≠ "") →
  is_active now (display_dates lib asset) at_time = Raise TypeError.
Proof.
  intros H Hne.
  apply is_active_true_inv in H as (s & e & Hs & He & _).
  unfold display_dates. rewrite Hs, He.
  unfold is_active, getitem.
  assert (Es : String.eqb (date_to_string lib s) "" = false)
    by apply String.eqb_neq, Hne.
  assert (Ee : String.eqb (date_to_string lib e) "" = false)
    by apply String.eqb_neq, Hne.
  rewrite (lookup_insert_ne _ "end_date" "start_date") by discriminate.
  rewrite !lookup_insert_eq. simpl. rewrite Es. simpl. rewrite Ee. reflexivity.
Qed.

Lemma is_active_rejects_displayed_witness :
  is_active (datetime5 2013 1 17 9 30) (display_dates demo_lib wireload_asset)
    None = Raise TypeError.
Proof.
  apply (is_active_rejects_displayed demo_lib (datetime5 2013 1 17 9 30)
           wireload_asset None None); [reflexivity|discriminate].
Defined.

(** ** The three readers of the store *)

Lemma filter_partition_perm {A} (f : A → bool) (l : list A) :
  Permutation (List.filter f l ++ List.filter (λ x, negb (f x)) l) l.
Proof.
  induction l as [|a l IH]; simpl; [constructor|].
  destruct (f a); simpl.
  - now constructor.
  - symmetry. apply Permutation_cons_app. now symmetry.
Qed.

Lemma fetched_dict_lookup keys (row : gmap string pyval) key :
  fetched_dict keys row !! key
  = if bool_decide (key ∈ keys) then Some (default PNone (row !! key)) else None.
Proof.
  unfold fetched_dict.
  assert (H : ∀ d : gmap string pyval,
            foldl (λ d k, <[k := default PNone (row !! k)]> d) d keys !! key
            = if bool_decide (key ∈ keys) then Some (default PNone (row !! key))
              else d !! key).
  { induction keys as [|k keys IH]; intros d; cbn [foldl].
    - rewrite bool_decide_eq_false_2; [reflexivity|]. apply not_elem_of_nil.
    - rewrite IH. destruct (bool_decide (key ∈ keys)) eqn:Hin.
      + apply bool_decide_eq_true in Hin.
        rewrite bool_decide_eq_true_2; [reflexivity|]. now constructor.
      + apply bool_decide_eq_false in Hin.
        destruct (decide (key = k)) as [->|Hne].
        * rewrite lookup_insert_eq.
          rewrite bool_decide_eq_true_2; [reflexivity|]. constructor.
        * rewrite lookup_insert_ne by auto.
          rewrite bool_decide_eq_false_2; [reflexivity|].
          intros Hk. apply elem_of_cons in Hk as [|]; auto. }
  rewrite H. now rewrite lookup_empty.
Qed.

Section Readers.

Variable lib : platform.

Lemma grouped_loop_filter now (assets active0 inactive0 : list (gmap string pyval)) :
  Forall scheduled_record assets →
  grouped_loop now assets active0 inactive0
  = Ok (active0 ++ List.filter (active now) assets,
        inactive0 ++ List.filter (λ a, negb (active now a)) assets)%list.
Proof.
  intros Hall. revert active0 inactive0.
  induction Hall as [|asset assets Hrec _ IH]; intros active0 inactive0; simpl.
  - now rewrite !app_nil_r.
  - destruct (scheduled_record_active now asset Hrec)
      as [(Hact & Hia & _) | (Hact & Hia)]; rewrite Hia, Hact; simpl;
      rewrite IH, <- app_assoc; reflexivity.
Qed.

Lemma api_assets_loop_map now (assets flagged : list (gmap string pyval)) :
  Forall scheduled_record assets →
  api_assets_loop now assets flagged
  = Ok (flagged
        ++ ((λ a : gmap string pyval, <["is_active" := PBool (active now a)]> a)
              <$> assets))%list.
Proof.
  intros Hall. revert flagged.
  induction Hall as [|asset assets Hrec _ IH]; intros flagged; simpl.
  - now rewrite app_nil_r.
  - destruct (scheduled_record_active now asset Hrec)
      as [(Hact & Hia & _) | (Hact & Hia)]; rewrite Hia, Hact; simpl;
      rewrite IH, <- app_assoc; reflexivity.
Qed.

(** X4: the dashboard splits the fetched assets in two groups that
    together hold every asset once, each group in the Store's order;
    the active group is the playlist before its dates are put in
    display form. *)
Theorem get_assets_grouped_partition e st assets :
  fetch_assets lib None "name" st = (Ok assets, st) →
  Forall scheduled_record assets →
  let on := List.filter (active (get_current_time e)) assets in
  let off := List.filter (λ a, negb (active (get_current_time e) a)) assets in
  get_assets_grouped lib e st = (Ok (on, off), st)
  ∧ Permutation (on ++ off) assets
  ∧ on `sublist_of` assets ∧ off `sublist_of` assets
  ∧ get_playlist lib e st = (Ok (display_dates lib <$> on), st).
Proof.
  intros Hfetch Hall on off.
  assert (Hsub : ∀ f : gmap string pyval → bool, List.filter f assets `sublist_of` assets).
  { intros f. clear. induction assets as [|a l IH]; simpl; [constructor|].
    destruct (f a); now constructor. }
  split; [|split; [apply filter_partition_perm|split; [apply Hsub|split; [apply Hsub|]]]].
  - unfold get_assets_grouped, mbind, M_bind, lift. rewrite Hfetch.
    now rewrite (grouped_loop_filter _ _ [] [] Hall).
  - unfold get_playlist, mbind, M_bind, lift. rewrite Hfetch.
    now rewrite (playlist_loop_filter lib _ _ [] Hall).
Qed.

(** X5: [GET /api/assets] returns every fetched asset, in the Store's
    order, with the entry [is_active] added and nothing else changed;
    the assets it flags true are those of the dashboard's active
    group. *)
Theorem api_assets_flags e st assets :
  fetch_assets lib None "name" st = (Ok assets, st) →
  Forall scheduled_record assets →
  ∃ flagged,
    api_assets lib e st = (Ok flagged, st)
    ∧ Forall2 (λ a a' : gmap string pyval,
         a' !! "is_active" = Some (PBool (active (get_current_time e) a))
         ∧ ∀ key, key ≠ "is_active" → a' !! key = a !! key) assets flagged
    ∧ ∃ off,
        get_assets_grouped lib e st
        = (Ok (delete "is_active"
                 <$> List.filter (λ a' : gmap string pyval,
                        bool_decide (a' !! "is_active" = Some (PBool true))) flagged,
               off), st).
Proof.
  intros Hfetch Hall.
  set (now := get_current_time e).
  set (flag := λ a : gmap string pyval, <["is_active" := PBool (active now a)]> a).
  exists (flag <$> assets). split; [|split].
  - unfold api_assets, mbind, M_bind, lift. rewrite Hfetch.
    now rewrite (api_assets_loop_map _ _ [] Hall).
  - apply Forall2_fmap_r, Forall_Forall2_diag, Forall_forall. intros a _.
    unfold flag. split; [apply lookup_insert_eq|].
    intros key Hk. now apply lookup_insert_ne.
  - eexists. unfold get_assets_grouped, mbind, M_bind, lift. rewrite Hfetch.
    rewrite (grouped_loop_filter _ _ [] [] Hall). simpl. do 3 f_equal.
    assert (Hfresh : Forall (λ a : gmap string pyval, a !! "is_active" = None) assets).
    { pose proof (fetch_assets_total lib None "name" st) as Ht.
      rewrite Hfetch in Ht. injection Ht as ->.
      apply Forall_fmap, Forall_forall. intros row _. simpl.
      rewrite fetched_dict_lookup. rewrite bool_decide_eq_false_2; [reflexivity|].
      rewrite list_elem_of_In. simpl. intuition discriminate. }
    clear Hfetch Hall. fold now.
    induction Hfresh as [|a l Ha _ IH]; [reflexivity|].
    assert (Hl : flag a !! "is_active" = Some (PBool (active now a)))
      by apply lookup_insert_eq.
    assert (Hd : delete "is_active" (flag a) = a).
    { unfold flag. rewrite delete_insert_eq. now apply delete_id. }
    cbn [fmap list_fmap List.filter]. rewrite Hl.
    destruct (active now a).
    + rewrite bool_decide_eq_true_2 by reflexivity.
      cbn [fmap list_fmap]. rewrite Hd. f_equal. exact IH.
    + rewrite bool_decide_eq_false_2 by congruence. exact IH.
Qed.

End Readers.

Lemma two_asset_state_scheduled :
  Forall scheduled_record [unscheduled_asset; wireload_asset].
Proof.
  repeat constructor.
  - exists (PStr ""), (PStr ""). repeat split; try reflexivity; right; right; reflexivity.
  - exists (PDatetime (datetime5 2013 1 16 0 0)), (PDatetime (datetime5 2013 1 19 23 59)).
    repeat split; try reflexivity; left; eexists; reflexivity.
Qed.

Lemma get_assets_grouped_partition_witness :
  get_assets_grouped demo_lib demo_env two_asset_state
  = (Ok ([wireload_asset], [unscheduled_asset]), two_asset_state).
Proof.
  exact (proj1 (get_assets_grouped_partition demo_lib demo_env two_asset_state
                  [unscheduled_asset; wireload_asset] eq_refl
                  two_asset_state_scheduled)).
Defined.

Lemma api_assets_flags_witness :
  ∃ flagged,
    api_assets demo_lib demo_env two_asset_state = (Ok flagged, two_asset_state)
    ∧ (λ a : gmap string pyval, a !! "is_active") <$> flagged
      = [Some (PBool false); Some (PBool true)].
Proof.
  destruct (api_assets_flags demo_lib demo_env two_asset_state
              [unscheduled_asset; wireload_asset] eq_refl
              two_asset_state_scheduled) as (flagged & Hapi & Hflags & _).
  exists flagged. split; [exact Hapi|].
  inversion Hflags as [|a a' l l' [Ha _] Hrest]; subst.
  inversion Hrest as [|b b' l2 l2' [Hb _] Hnil]; subst.
  inversion Hnil; subst. simpl. rewrite Ha, Hb. reflexivity.
Defined.



(** ** Ingestion: what it touches and what it refuses *)

Ltac destruct_match_goal :=
  match goal with
  | |- context [match ?x with _ => _ end] =>
      lazymatch x with
      | context [match _ with _ => _ end] => fail
      | _ => destruct x eqn:?
      end
  end.

Ltac close_state w :=
  eexists _, w; (split; [|split]); [ | | intros; reflexivity];
  [ try discriminate; eauto
  | intros; first [reflexivity | assumption | discriminate | congruence] ].

(** Apart from the file an upload writes, [prepare_asset] only passes
    the state on: its result is the same from every state. *)
Lemma prepare_asset_state lib e req :
  ∃ r (wrote : bool),
    (wrote = true → is_Some (files_file_upload req))
    ∧ (wrote = false → ∀ asset, r = Ok asset → files_file_upload req = None)
    ∧ ∀ st, prepare_asset lib e req st
            = (r, if wrote then with_upload lib req st else st).
Proof.
  unfold prepare_asset, ingest_uri, ingest_upload, mbind, M_bind, lift, raise,
    mret, M_ret, write_file, upload_file, with_upload, upload_path.
  pose proof stream_read_twice as Htwice.
  repeat (destruct_match_goal; simpl in * ); try congruence.
  all: try rewrite Htwice.
  all: first
    [ solve [close_state true] | solve [close_state false] ].
Qed.

(** X7: [prepare_asset] never changes the table; it changes the disk
    only by writing the file of an upload, so a submission without an
    upload leaves the state as it was; and what it returns does not
    depend on the state it starts from. *)
Theorem prepare_asset_frame lib e req st r st' :
  prepare_asset lib e req st = (r, st') →
  assets_table st' = assets_table st
  ∧ (st' = st ∨ is_Some (files_file_upload req) ∧ st' = with_upload lib req st)
  ∧ (files_file_upload req = None → st' = st)
  ∧ ∀ st2, (prepare_asset lib e req st2).1 = r.
Proof.
  destruct (prepare_asset_state lib e req) as (r0 & wrote & Hw & _ & Hst).
  rewrite Hst. intros [= <- <-].
  split; [destruct wrote; reflexivity|]. split; [destruct wrote; auto|]. split.
  - intros Hnone. destruct wrote; [|reflexivity].
    destruct (Hw eq_refl) as [? ?]; congruence.
  - intros st2. now rewrite Hst.
Qed.

Lemma prepare_asset_frame_witness :
  assets_table (prepare_asset demo_lib demo_env upload_request two_asset_state).2
  = assets_table two_asset_state.
Proof.
  exact (proj1 (prepare_asset_frame demo_lib demo_env upload_request two_asset_state
                  _ _ (surjective_pairing _))).
Defined.



(** X9: a file sent with a mimetype that contains "web" is refused as a
    web resource that cannot be uploaded, also when a URI comes with
    it: this check precedes the one on URI and file together. *)
Theorem prepare_asset_rejects_web_upload lib e req st data f name uri mimetype :
  request_data lib req = Ok data →
  get data "name" = Ok name → name ≠ "" →
  get data "uri" = Ok uri →
  get data "mimetype" = Ok mimetype →
  str_contains "web" mimetype = true →
  files_file_upload req = Some f →
  prepare_asset lib e req st
  = (Raise match decode_utf8 lib name with
           | Ok _ => Exception "Invalid combination. Can't upload a web resource."
           | Raise err => err
           end, st).
Proof.
  intros Hdata Hname Hn Huri Hmime Hweb Hf.
  assert (Hm : mimetype ≠ "") by (intros ->; discriminate).
  apply eqb_empty_false in Hn, Hm.
  unfold prepare_asset, mbind, M_bind, lift, raise, upload_file.
  rewrite Hdata, Hname, Huri, Hmime, Hn, Hm, Hf. rewrite orb_true_r. simpl.
  destruct (decode_utf8 lib name) as [name'|err]; [|reflexivity].
  simpl. now rewrite Hweb.
Qed.

Lemma prepare_asset_rejects_web_upload_witness :
  prepare_asset demo_lib demo_env web_upload_request empty_state
  = (Raise (Exception "Invalid combination. Can't upload a web resource."),
     empty_state).
Proof.
  apply (prepare_asset_rejects_web_upload demo_lib demo_env web_upload_request
           empty_state (PStr <$> POST web_upload_request) (mk_stream "<html>" 0)
           "page" "http://www.wireload.net" "web");
    first [reflexivity | discriminate].
Defined.

(** X10: for a submission by URI, a URL that fails the verification is
    refused as invalid; an error of the parser or of the request itself
    comes out as it is; an answer other than 200 is refused as not
    retrievable. In each case the state is untouched. *)
Theorem prepare_asset_uri_errors lib e req st data name name' uri mimetype :
  request_data lib req = Ok data →
  get data "name" = Ok name → name ≠ "" →
  decode_utf8 lib name = Ok name' →
  get data "uri" = Ok uri → uri ≠ "" →
  get data "mimetype" = Ok mimetype → mimetype ≠ "" →
  files_file_upload req = None →
  let fetch := if str_contains "image" mimetype
               then req_get e uri else req_head e uri in
  (validate_uri uri = Ok false →
     prepare_asset lib e req st
     = (Raise (Exception "Invalid URL. Failed to add asset."), st))
  ∧ (∀ err, validate_uri uri = Raise err →
       prepare_asset lib e req st = (Raise err, st))
  ∧ (∀ err, validate_uri uri = Ok true → fetch = Raise err →
       prepare_asset lib e req st = (Raise err, st))
  ∧ (∀ file, validate_uri uri = Ok true → fetch = Ok file →
       status_code file ≠ 200%Z →
       prepare_asset lib e req st
       = (Raise (Exception "Could not retrieve file. Check the asset URL."), st)).
Proof.
  intros Hdata Hname Hn Hdec Huri Hu Hmime Hm Hf fetch.
  apply eqb_empty_false in Hn, Hu, Hm.
  assert (Hstart : ∀ r,
    ingest_uri lib e mimetype name' uri
      (<["mimetype" := PStr mimetype]> (<["name" := PStr name']> ∅)) st = (Raise r, st) →
    prepare_asset lib e req st = (Raise r, st)).
  { intros r Hr. unfold prepare_asset, mbind, M_bind, lift, raise, upload_file.
    rewrite Hdata, Hname, Huri, Hmime, Hn, Hu, Hm, Hf. simpl.
    rewrite Hdec. simpl. now rewrite Hr. }
  repeat split; intros; apply Hstart;
    unfold ingest_uri, mbind, M_bind, lift, raise.
  - now rewrite H.
  - now rewrite H.
  - rewrite H. simpl. fold fetch. now rewrite H0.
  - rewrite H. simpl. fold fetch. rewrite H0.
    apply Z.eqb_neq in H1. now rewrite H1.
Qed.

Lemma prepare_asset_uri_errors_witness :
  prepare_asset demo_lib demo_env
    (mk_request (<["name" := "clip"]>
                   (<["uri" := "ftp://example.com"]>
                      (<["mimetype" := "video"]> ∅))) ∅ None)
    empty_state
  = (Raise (Exception "Invalid URL. Failed to add asset."), empty_state).
Proof.
  set (req := mk_request (<["name" := "clip"]>
                            (<["uri" := "ftp://example.com"]>
                               (<["mimetype" := "video"]> ∅))) ∅ None).
  refine (proj1 (prepare_asset_uri_errors demo_lib demo_env req empty_state
                   (PStr <$> POST req)
                   "clip" "clip" "ftp://example.com" "video"
                   eq_refl eq_refl _ eq_refl eq_refl _ eq_refl _ eq_refl) eq_refl);
    discriminate.
Defined.

(** X11: a submission whose mimetype does not contain "image" is
    checked with a HEAD request only, and one whose mimetype contains
    it with a GET request only: the other kind of request has no part
    in the outcome. *)
Theorem prepare_asset_fetch_method lib e1 e2 req st data mimetype :
  request_data lib req = Ok data →
  get data "mimetype" = Ok mimetype →
  (∀ path, can_open_w e1 path = can_open_w e2 path) →
  (∀ uri, if str_contains "image" mimetype
          then req_get e1 uri = req_get e2 uri
          else req_head e1 uri = req_head e2 uri) →
  prepare_asset lib e1 req st = prepare_asset lib e2 req st.
Proof.
  intros Hdata Hmime Hopen Hfetch.
  assert (Huri : ∀ name uri asset s,
            ingest_uri lib e1 mimetype name uri asset s
            = ingest_uri lib e2 mimetype name uri asset s).
  { intros. unfold ingest_uri. specialize (Hfetch uri).
    destruct (str_contains "image" mimetype); now rewrite Hfetch. }
  assert (Hup : ∀ f asset s, ingest_upload lib e1 f asset s = ingest_upload lib e2 f asset s).
  { intros. unfold ingest_upload, write_file, mbind, M_bind.
    destruct (stream_read f) as [b f1]. destruct (stream_read f1) as [b' f2].
    now rewrite Hopen. }
  unfold prepare_asset, mbind, M_bind, lift.
  rewrite Hdata, Hmime.
  destruct (get data "name") as [name|]; [|reflexivity].
  destruct (get data "uri") as [uri|]; [|reflexivity].
  destruct (_ && _ && _); [|reflexivity].
  destruct (result_bind _ _ _ _) as [name'|]; [|reflexivity].
  destruct (_ && _); [reflexivity|]. destruct (_ && _); [reflexivity|].
  destruct (negb (String.eqb uri "")).
  - rewrite Huri. destruct (ingest_uri _ _ _ _ _ _ _) as [[a|] s1]; [|reflexivity].
    destruct (upload_file req); [now rewrite Hup | reflexivity].
  - simpl. destruct (upload_file req); [now rewrite Hup | reflexivity].
Qed.

Lemma prepare_asset_fetch_method_witness :
  prepare_asset demo_lib (mk_env (datetime5 2013 1 17 9 30)
                            (λ _, Raise RequestException)
                            (req_head demo_env) (can_open_w demo_env))
    video_request empty_state
  = prepare_asset demo_lib demo_env video_request empty_state.
Proof.
  apply (prepare_asset_fetch_method demo_lib _ demo_env video_request empty_state
           (PStr <$> POST video_request) "video"); reflexivity.
Defined.

Lemma parse_date_field_value lib data key asset asset' :
  parse_date_field lib data key asset = Ok asset' →
  ∃ v, asset' = <[key := v]> asset ∧ (v = PStr "" ∨ ∃ d, v = PDatetime d).
Proof.
  unfold parse_date_field, mbind, result_bind.
  destruct (get data key) as [v|]; [|discriminate].
  destruct (negb (String.eqb v "")).
  - destruct (strptime lib _ _) as [d|]; [|discriminate]. intros [= <-]. eauto.
  - intros [= <-]. eauto.
Qed.

Lemma set_duration_value data mimetype (asset asset' : gmap string pyval) :
  set_duration data mimetype asset = Ok asset' →
  asset' = asset ∨ ∃ d, asset' = <["duration" := PStr d]> asset.
Proof.
  unfold set_duration, mbind, result_bind.
  destruct (get data "duration") as [d|]; [|discriminate].
  destruct (negb (String.eqb d "")); intros [= <-];
    destruct (str_contains "video" mimetype); eauto.
  right. exists d. apply insert_insert_eq.
Qed.

(** The steps of a successful [prepare_asset]: the record under
    construction after the URI or upload block, then after the duration
    and the two dates. *)
Lemma prepare_asset_ok_steps lib e req st asset st' :
  prepare_asset lib e req st = (Ok asset, st') →
  ∃ data name mimetype asset_id uri a3 a4,
    request_data lib req = Ok data
    ∧ get data "mimetype" = Ok mimetype
    ∧ set_duration data mimetype
        (<["uri" := PStr uri]>
           (<["asset_id" := PStr asset_id]>
              (<["mimetype" := PStr mimetype]> (<["name" := PStr name]> ∅))))
      = Ok a3
    ∧ parse_date_field lib data "start_date" a3 = Ok a4
    ∧ parse_date_field lib data "end_date" a4 = Ok asset.
Proof.
  unfold prepare_asset. intros H.
  bind_inv H as data Hdata. bind_inv H as name Hname.
  bind_inv H as uri Huri. bind_inv H as mimetype Hmime.
  destruct (_ && _ && _) eqn:Hall in H; [|discriminate].
  apply andb_true_iff in Hall as [Hall _]. apply andb_true_iff in Hall as [_ Hsrc].
  bind_inv H as name' Hname'. bind_inv H as mimetype' Hmime'.
  rewrite Hmime in Hmime'. injection Hmime' as <-.
  bind_inv H as uri' Huri'. rewrite Huri in Huri'. injection Huri' as <-.
  unfold upload_file in H.
  destruct (bool_decide (files_file_upload req ≠ None) && str_contains "web" mimetype);
    [discriminate|].
  destruct (negb (String.eqb uri "") && bool_decide (files_file_upload req ≠ None))
    eqn:Hboth; [discriminate|].
  apply bind_ok in H as (a1 & s1 & H1 & H).
  apply bind_ok in H as (a2 & s2 & H2 & H).
  bind_inv H as a3 H3. bind_inv H as a4 H4. bind_inv H as a5 H5.
  apply mret_ok in H as [-> ->].
  assert (Hbase : ∃ asset_id uri0,
            a2 = <["uri" := PStr uri0]>
                   (<["asset_id" := PStr asset_id]>
                      (<["mimetype" := PStr mimetype]> (<["name" := PStr name']> ∅)))).
  { destruct (negb (String.eqb uri "")) eqn:Hu.
    - simpl in Hboth. apply bool_decide_eq_false in Hboth.
      assert (Hnone : files_file_upload req = None).
      { destruct (files_file_upload req); [exfalso; apply Hboth; discriminate|reflexivity]. }
      rewrite Hnone in H2. apply mret_ok in H2 as [-> ->].
      apply ingest_uri_ok in H1 as (_ & _ & ->). eauto.
    - apply mret_ok in H1 as [-> ->]. simpl in Hsrc.
      apply bool_decide_eq_true in Hsrc.
      destruct (files_file_upload req) as [f|]; [|congruence].
      apply ingest_upload_ok in H2 as (-> & _). eauto. }
  destruct Hbase as (asset_id & uri0 & ->).
  exists data, name', mimetype, asset_id, uri0, a3, a4. auto.
Qed.

(** The record of a successful [prepare_asset], entry by entry. *)
Lemma prepare_asset_ok_shape lib e req st asset st' :
  prepare_asset lib e req st = (Ok asset, st') →
  ∃ name mimetype asset_id uri vs ve (duration : option string),
    let base : gmap string pyval :=
      <["uri" := PStr uri]>
        (<["asset_id" := PStr asset_id]>
           (<["mimetype" := PStr mimetype]> (<["name" := PStr name]> ∅))) in
    asset = <["end_date" := ve]>
              (<["start_date" := vs]>
                 match duration with
                 | Some d => <["duration" := PStr d]> base
                 | None => base
                 end)
    ∧ (vs = PStr "" ∨ ∃ d, vs = PDatetime d)
    ∧ (ve = PStr "" ∨ ∃ d, ve = PDatetime d).
Proof.
  intros H.
  apply prepare_asset_ok_steps in H
    as (data & name & mimetype & asset_id & uri & a3 & a4 & _ & _ & H3 & H4 & H5).
  apply set_duration_value in H3.
  apply parse_date_field_value in H4 as (vs & -> & Hvs).
  apply parse_date_field_value in H5 as (ve & -> & Hve).
  destruct H3 as [-> | [d ->]].
  - exists name, mimetype, asset_id, uri, vs, ve, None. auto.
  - exists name, mimetype, asset_id, uri, vs, ve, (Some d). auto.
Qed.

Lemma scheduled_record_total now asset at_time :
  scheduled_record asset → ∃ b, is_active now asset at_time = Ok b.
Proof.
  intros (s & e & Hs & He & Ts & Te).
  destruct Ts as [[ds ->] | Hs'].
  - destruct Te as [[de ->] | He'].
    + rewrite (is_active_datetimes now asset ds de at_time Hs He). eauto.
    + rewrite is_active_absent; eauto 10.
  - rewrite is_active_absent; eauto 10.
Qed.

(** X12: a record that [prepare_asset] returns has the entries name,
    mimetype, asset_id, uri, start_date and end_date, possibly duration,
    and no other; its dates are datetimes or empty strings and every
    other entry is a string. [is_active] therefore returns on it, at
    every time, without raising. *)
Theorem prepare_asset_record lib e req st asset st' :
  prepare_asset lib e req st = (Ok asset, st') →
  (∀ key, is_Some (asset !! key) →
     key ∈ ["name"; "mimetype"; "asset_id"; "uri"; "duration";
            "start_date"; "end_date"])
  ∧ (∀ key, key ∈ ["name"; "mimetype"; "asset_id"; "uri"; "start_date"; "end_date"] →
       is_Some (asset !! key))
  ∧ (∀ key v, asset !! key = Some v → key ≠ "start_date" → key ≠ "end_date" →
       ∃ s, v = PStr s)
  ∧ scheduled_record asset
  ∧ ∀ now at_time, ∃ b, is_active now asset at_time = Ok b.
Proof.
  intros H.
  apply prepare_asset_ok_shape in H
    as (name & mimetype & asset_id & uri & vs & ve & duration & -> & Hvs & Hve).
  assert (Hrec : scheduled_record
            (<["end_date" := ve]>
               (<["start_date" := vs]>
                  match duration with
                  | Some d =>
                      <["duration" := PStr d]>
                        (<["uri" := PStr uri]>
                           (<["asset_id" := PStr asset_id]>
                              (<["mimetype" := PStr mimetype]>
                                 (<["name" := PStr name]> ∅))))
                  | None =>
                      <["uri" := PStr uri]>
                        (<["asset_id" := PStr asset_id]>
                           (<["mimetype" := PStr mimetype]>
                              (<["name" := PStr name]> ∅)))
                  end))).
  { exists vs, ve. rewrite lookup_insert_ne, !lookup_insert_eq by discriminate.
    repeat split; auto.
    - destruct Hvs as [-> | ?]; [right; right|left]; auto.
    - destruct Hve as [-> | ?]; [right; right|left]; auto. }
  split; [|split; [|split; [|split; [exact Hrec|]]]].
  - intros key [v Hv]. rewrite !list_elem_of_In. simpl.
    destruct duration;
      repeat (rewrite lookup_insert in Hv; case_decide; [subst; auto 10|]);
      rewrite lookup_empty in Hv; discriminate.
  - intros key Hkey. apply list_elem_of_In in Hkey. simpl in Hkey.
    destruct duration;
      repeat (destruct Hkey as [<- | Hkey]; [now simplify_map_eq|]);
      contradiction.
  - intros key v Hv H1 H2.
    rewrite !lookup_insert_ne in Hv by auto.
    destruct duration;
      repeat (rewrite lookup_insert in Hv; case_decide; [injection Hv as <-; eauto|]);
      rewrite lookup_empty in Hv; discriminate.
  - intros now at_time. now apply scheduled_record_total.
Qed.

Lemma prepare_asset_record_witness :
  ∃ b, is_active (datetime5 2013 1 17 9 30)
         (<["name" := PStr "clip"]>
          (<["mimetype" := PStr "video"]>
           (<["asset_id" := PStr "md5(cliphttp://example.com/clip.mp4)"]>
            (<["uri" := PStr "http://example.com/clip.mp4"]>
             (<["duration" := PStr "30"]>
              (<["start_date" := PStr ""]>
               (<["end_date" := PStr ""]> ∅))))))) None = Ok b.
Proof.
  refine (proj2 (proj2 (proj2 (proj2
            (prepare_asset_record demo_lib demo_env video_request empty_state
               (<["name" := PStr "clip"]>
                (<["mimetype" := PStr "video"]>
                 (<["asset_id" := PStr "md5(cliphttp://example.com/clip.mp4)"]>
                  (<["uri" := PStr "http://example.com/clip.mp4"]>
                   (<["duration" := PStr "30"]>
                    (<["start_date" := PStr ""]>
                     (<["end_date" := PStr ""]> ∅)))))))
               empty_state _)))) _ _).
  by_vm.
Defined.

Lemma ingest_upload_run lib e f (asset : gmap string pyval) st :
  ingest_upload lib e f asset st
  = let asset_id := md5_hexdigest lib (stream_read f).1 in
    let path := path_join (asset_folder lib) asset_id in
    if can_open_w e path
    then (Ok (<["uri" := PStr path]> (<["asset_id" := PStr asset_id]> asset)),
          mk_state (<[path := ""]> (files st)) (assets_table st))
    else (Raise IOError, st).
Proof.
  unfold ingest_upload, stream_read, mbind, M_bind, write_file, mret, M_ret.
  simpl. rewrite str_drop_all. destruct (can_open_w _ _); reflexivity.
Qed.

(** X13: when an uploaded file has been written and a later step
    fails, here the parsing of the start date, [prepare_asset] raises
    and the file stays on disk, with no record to go with it. *)
Theorem prepare_asset_leaves_file lib e req st data f name name' mimetype
    duration start err :
  request_data lib req = Ok data →
  get data "name" = Ok name → name ≠ "" →
  decode_utf8 lib name = Ok name' →
  get data "uri" = Ok "" →
  get data "mimetype" = Ok mimetype → mimetype ≠ "" →
  str_contains "web" mimetype = false →
  files_file_upload req = Some f →
  can_open_w e (upload_path lib req) = true →
  get data "duration" = Ok duration →
  get data "start_date" = Ok start → start ≠ "" →
  strptime lib (before_first "." start) iso_format = Raise err →
  prepare_asset lib e req st = (Raise err, with_upload lib req st)
  ∧ files (with_upload lib req st) !! upload_path lib req = Some "".
Proof.
  intros Hdata Hname Hn Hdec Huri Hmime Hm Hweb Hf Hopen Hdur Hstart Hs Herr.
  split; [|apply lookup_insert_eq].
  apply eqb_empty_false in Hn, Hm, Hs.
  unfold with_upload, upload_path in *. rewrite Hf in *.
  unfold prepare_asset, mbind, M_bind, lift, raise, upload_file.
  rewrite Hdata, Hname, Huri, Hmime, Hn, Hm, Hf.
  cbn [negb String.eqb orb andb result_bind]. rewrite Hdec.
  rewrite bool_decide_eq_true_2 by discriminate.
  cbn [negb orb andb]. rewrite Hweb. cbn [negb orb andb mret M_ret].
  rewrite ingest_upload_run. cbv zeta. rewrite Hopen.
  unfold set_duration, parse_date_field, mbind, result_bind.
  rewrite Hdur, Hstart, Hs, Herr.
  destruct (negb (String.eqb duration "")); reflexivity.
Qed.

Lemma prepare_asset_leaves_file_witness :
  prepare_asset demo_lib demo_env misdated_upload_request empty_state
  = (Raise ValueError, with_upload demo_lib misdated_upload_request empty_state)
  ∧ files (with_upload demo_lib misdated_upload_request empty_state)
      !! upload_path demo_lib misdated_upload_request = Some "".
Proof.
  apply (prepare_asset_leaves_file demo_lib demo_env misdated_upload_request
           empty_state (PStr <$> POST misdated_upload_request)
           (mk_stream "abc" 0) "logo" "logo" "image" "" "tomorrow" ValueError);
    first [reflexivity | discriminate].
Defined.

(** X14: [add_asset] does not look for the id in the table: a
    submission that was added once is added again by the same request,
    and the table then ends with two rows that are the same record,
    [asset_id] included. *)
Theorem add_asset_twice lib e req st st1 :
  add_asset lib e req st = (Redirect "/", st1) →
  ∃ asset st2,
    assets_table st1 = (assets_table st ++ [asset])%list
    ∧ add_asset lib e req st1 = (Redirect "/", st2)
    ∧ assets_table st2 = (assets_table st ++ [asset; asset])%list
    ∧ files st2 = files st1
    ∧ is_Some (asset !! "asset_id").
Proof.
  destruct (prepare_asset_state lib e req) as (r & wrote & _ & _ & Hst).
  unfold add_asset, mbind, M_bind, sql_insert. rewrite !Hst.
  destruct r as [asset|err]; [|discriminate]. intros [= <-].
  assert (Hid : is_Some (asset !! "asset_id")).
  { pose proof (Hst st) as H. apply prepare_asset_ok_table in H. tauto. }
  exists asset. eexists. split; [now destruct wrote|]. split; [reflexivity|].
  destruct wrote; simpl; rewrite <- app_assoc;
    (split; [reflexivity|]); (split; [|exact Hid]);
    [apply insert_insert_eq | reflexivity].
Qed.

Lemma add_asset_twice_witness :
  ∃ asset st1 st2,
    add_asset demo_lib demo_env video_request two_asset_state = (Redirect "/", st1)
    ∧ add_asset demo_lib demo_env video_request st1 = (Redirect "/", st2)
    ∧ assets_table st2 = [unscheduled_asset; wireload_asset; asset; asset].
Proof.
  assert (H : add_asset demo_lib demo_env video_request two_asset_state
              = (Redirect "/",
                 (add_asset demo_lib demo_env video_request two_asset_state).2)).
  { by_vm. }
  destruct (add_asset_twice demo_lib demo_env video_request two_asset_state _ H)
    as (asset & st2 & _ & H2 & Htable & _).
  exists asset, (add_asset demo_lib demo_env video_request two_asset_state).2, st2.
  split; [exact H|]. split; [exact H2|exact Htable].
Defined.

(** X15: the edit endpoint does not report an id that no row has: the
    table stays as it was, and when ingestion succeeds the reply is the
    same redirect as after an update. *)
Theorem edit_asset_unknown_id lib e req asset_id st :
  Forall (λ row : gmap string pyval, row !! "asset_id" ≠ Some (PStr asset_id))
    (assets_table st) →
  assets_table (edit_asset lib e req asset_id st).2 = assets_table st
  ∧ ∀ asset st1, prepare_asset lib e req st = (Ok asset, st1) →
      (edit_asset lib e req asset_id st).1 = Redirect "/".
Proof.
  intros Hno.
  destruct (prepare_asset_state lib e req) as (r & wrote & _ & _ & Hst).
  unfold edit_asset, mbind, M_bind, lift, delitem, sql_update. rewrite !Hst.
  assert (Htable : assets_table (if wrote then with_upload lib req st else st)
                   = assets_table st) by now destruct wrote.
  split.
  - destruct r as [asset|err]; [|exact Htable].
    destruct (asset !! "asset_id"); [|exact Htable]. simpl.
    rewrite Htable. clear Htable.
    induction Hno as [|row l Hrow _ IH]; [reflexivity|].
    cbn [fmap list_fmap]. rewrite bool_decide_eq_false_2 by exact Hrow.
    f_equal. exact IH.
  - intros asset st1 [= -> <-].
    pose proof (Hst st) as H. apply prepare_asset_ok_table in H as (_ & [id Hid] & _).
    now rewrite Hid.
Qed.

Lemma edit_asset_unknown_id_witness :
  assets_table (edit_asset demo_lib demo_env video_request "no-such-id"
                  two_asset_state).2
  = [unscheduled_asset; wireload_asset].
Proof.
  refine (proj1 (edit_asset_unknown_id demo_lib demo_env video_request "no-such-id"
                   two_asset_state _)).
  repeat constructor; discriminate.
Defined.

(** X16: when ingestion fails, the two API endpoints answer with the
    error that was raised and leave the table as it was. *)
Theorem api_failure_keeps_table lib e req asset_id st err st1 :
  prepare_asset lib e req st = (Raise err, st1) →
  add_asset lib e req st = (ApiError err, st1)
  ∧ edit_asset lib e req asset_id st = (ApiError err, st1)
  ∧ assets_table st1 = assets_table st.
Proof.
  intros H. unfold add_asset, edit_asset, mbind, M_bind. rewrite H.
  repeat split.
  destruct (prepare_asset_state lib e req) as (r & wrote & _ & _ & Hst).
  rewrite Hst in H. injection H as _ <-. now destruct wrote.
Qed.

Lemma api_failure_keeps_table_witness :
  add_asset demo_lib demo_env uri_and_file_request two_asset_state
  = (ApiError (Exception "Invalid combination. Can't select both URI and a file."),
     two_asset_state).
Proof.
  refine (proj1 (api_failure_keeps_table demo_lib demo_env uri_and_file_request
                   "4c8dbce552edb5812d3a866cfe5f159d" two_asset_state
                   (Exception "Invalid combination. Can't select both URI and a file.")
                   two_asset_state _)).
  by_vm.
Defined.

(** ** Deleting *)

Lemma filter_keep_all {A} (f : A → bool) (l : list A) :
  Forall (λ x, f x = true) l → List.filter f l = l.
Proof.
  induction 1 as [|x l Hx _ IH]; simpl; [reflexivity|]. now rewrite Hx, IH.
Qed.

Lemma filter_sublist {A} (f : A → bool) (l : list A) :
  List.filter f l `sublist_of` l.
Proof.
  induction l as [|x l IH]; simpl; [constructor|].
  destruct (f x); now constructor.
Qed.

(** X17: after [delete_asset] no row has the id; the other rows are
    kept, in their order; an id that no row has leaves the table as it
    was. The rows are gone also when the reply is the failure page,
    which only tells that the file could not be removed. *)
Theorem delete_asset_rows lib can_remove asset_id st :
  let has_id := λ row : gmap string pyval,
                  bool_decide (row !! "asset_id" = Some (PStr asset_id)) in
  let st' := (delete_asset lib can_remove asset_id st).2 in
  Forall (λ row, row !! "asset_id" ≠ Some (PStr asset_id)) (assets_table st')
  ∧ assets_table st' = List.filter (λ row, negb (has_id row)) (assets_table st)
  ∧ assets_table st' `sublist_of` assets_table st
  ∧ (Forall (λ row, row !! "asset_id" ≠ Some (PStr asset_id)) (assets_table st) →
       assets_table st' = assets_table st).
Proof.
  intros has_id st'.
  assert (Htable : assets_table st'
                   = List.filter (λ row, negb (has_id row)) (assets_table st)).
  { unfold st', delete_asset, sql_delete. simpl.
    destruct (files st !! _); [destruct (can_remove _)|]; reflexivity. }
  rewrite Htable. split; [|split; [reflexivity|split]].
  - apply Forall_forall. intros row Hin.
    apply list_elem_of_In, filter_In in Hin as [_ Hrow].
    apply negb_true_iff, bool_decide_eq_false in Hrow. exact Hrow.
  - apply filter_sublist.
  - intros Hno. apply filter_keep_all.
    eapply Forall_impl; [exact Hno|]. intros row Hrow. simpl.
    apply negb_true_iff, bool_decide_eq_false. exact Hrow.
Qed.


(** X19: adding an upload and then deleting it by its id gives back
    the state from before, table and disk, when no row had that id and
    no file was at its path. *)
Theorem add_then_delete_restores lib e req st st1 bytes can_remove :
  files_file_upload req = Some (mk_stream bytes 0) →
  add_asset lib e req st = (Redirect "/", st1) →
  let asset_id := md5_hexdigest lib bytes in
  Forall (λ row : gmap string pyval, row !! "asset_id" ≠ Some (PStr asset_id))
    (assets_table st) →
  files st !! path_join (asset_folder lib) asset_id = None →
  can_remove (path_join (asset_folder lib) asset_id) = true →
  delete_asset lib can_remove asset_id st1
  = (Message "Success!" "Deleted asset.", st).
Proof.
  intros Hf Hadd asset_id Hfresh Hfree Hrm.
  unfold add_asset, mbind, M_bind, sql_insert in Hadd.
  destruct (prepare_asset lib e req st) as [[asset|err] s1] eqn:Hprep; [|discriminate].
  injection Hadd as <-.
  apply prepare_asset_ok in Hprep
    as (data & name & uri & mimetype & name' & duration & _ & _ & _ & _
        & _ & _ & _ & _ & _ & _ & _ & _ & _ & Hsrc).
  destruct Hsrc as [(_ & Hnone & _) | (_ & f & Hf' & _ & Hid & _ & _ & ->)];
    [congruence|].
  rewrite Hf in Hf'. injection Hf' as <-.
  rewrite stream_read_fresh in Hid |- *. fold asset_id in Hid |- *.
  unfold delete_asset, sql_delete. simpl.
  rewrite lookup_insert_eq, Hrm. f_equal.
  rewrite delete_insert_id by exact Hfree.
  rewrite List.filter_app. simpl.
  rewrite bool_decide_eq_true_2 by exact Hid. simpl. rewrite app_nil_r.
  rewrite filter_keep_all; [now destruct st|].
  eapply Forall_impl; [exact Hfresh|]. intros row Hrow. simpl.
  apply negb_true_iff, bool_decide_eq_false. exact Hrow.
Qed.

Lemma add_then_delete_restores_witness :
  delete_asset demo_lib (λ _, true) "md5(abc)"
    (add_asset demo_lib demo_env upload_request two_asset_state).2
  = (Message "Success!" "Deleted asset.", two_asset_state).
Proof.
  apply (add_then_delete_restores demo_lib demo_env upload_request two_asset_state
           _ "abc" (λ _, true) eq_refl).
  - by_vm.
  - repeat constructor; discriminate.
  - reflexivity.
  - reflexivity.
Defined.

(** ** The legacy forms *)

Lemma sql_update_rows (sets : gmap string pyval) asset_id st :
  sets !! "asset_id" = None →
  let st' := (sql_update sets asset_id st).2 in
  files st' = files st
  ∧ (λ row : gmap string pyval, row !! "asset_id") <$> assets_table st'
    = (λ row : gmap string pyval, row !! "asset_id") <$> assets_table st
  ∧ Forall2 (λ row row' : gmap string pyval,
       if bool_decide (row !! "asset_id" = Some (PStr asset_id))
       then row' = sets ∪ row else row' = row)
      (assets_table st) (assets_table st').
Proof.
  intros Hsets. unfold sql_update. simpl. split; [reflexivity|]. split.
  - rewrite <- list_fmap_compose. apply list_fmap_ext. intros _ row _. simpl.
    destruct (bool_decide _); [|reflexivity]. now rewrite lookup_union_r.
  - apply Forall2_fmap_r, Forall_Forall2_diag, Forall_forall. intros row _.
    unfold compose. cbv beta. destruct (bool_decide _); reflexivity.
Qed.

Lemma lookup_union_sets (sets row : gmap string pyval) key :
  (sets ∪ row) !! key
  = match sets !! key with Some v => Some v | None => row !! key end.
Proof. rewrite lookup_union. destruct (sets !! key), (row !! key); reflexivity. Qed.

(** X20: a schedule form with an asset id and two dates that parse sets
    the window of every row with that id, and of no other row: such a
    row is then active strictly between the two dates. Its other
    columns stay, except the duration, which becomes the one of the
    form, trimmed, whatever the mimetype of the row. *)
Theorem process_schedule_sets_window lib req st s e :
  strip (post_get req "asset") ≠ "" →
  strip (post_get req "start") ≠ "" →
  strip (post_get req "end") ≠ "" →
  strptime lib (strip (post_get req "start")) form_format = Ok s →
  strptime lib (strip (post_get req "end")) form_format = Ok e →
  ∃ st',
    process_schedule lib req st
    = (Ok (Message "Yes!" "Successfully scheduled asset."), st')
    ∧ files st' = files st
    ∧ Forall2 (λ row row' : gmap string pyval,
         if bool_decide (row !! "asset_id"
                         = Some (PStr (strip (post_get req "asset"))))
         then
           (∀ now t, is_active now row' (Some t) = Ok (dt_lt s t && dt_lt t e))
           ∧ row' !! "duration" = Some (PStr (strip (post_get req "duration")))
           ∧ ∀ key, key ≠ "start_date" → key ≠ "end_date" → key ≠ "duration" →
               row' !! key = row !! key
         else row' = row)
        (assets_table st) (assets_table st').
Proof.
  intros Ha Hs He Hstart Hend.
  apply eqb_empty_false in Ha, Hs, He.
  unfold process_schedule, mbind, M_bind, lift, mret, M_ret.
  rewrite Ha, Hs, He, Hstart, Hend. cbn [andb truthy negb String.eqb].
  set (sets := <["duration" := PStr (strip (post_get req "duration"))]>
                 (<["end_date" := PDatetime e]>
                    (<["start_date" := PDatetime s]> (∅ : gmap string pyval)))).
  assert (Hsets : sets !! "asset_id" = None) by reflexivity.
  assert (Hstart' : sets !! "start_date" = Some (PDatetime s)) by reflexivity.
  assert (Hend' : sets !! "end_date" = Some (PDatetime e)) by reflexivity.
  assert (Hdur : sets !! "duration" = Some (PStr (strip (post_get req "duration"))))
    by reflexivity.
  assert (Hother : ∀ key, key ≠ "start_date" → key ≠ "end_date" → key ≠ "duration" →
            sets !! key = None).
  { intros key H1 H2 H3. unfold sets.
    now rewrite !lookup_insert_ne, lookup_empty by auto. }
  destruct (sql_update_rows sets (strip (post_get req "asset")) st Hsets)
    as (Hfiles & _ & Hrows).
  clearbody sets.
  destruct (sql_update sets (strip (post_get req "asset")) st) as [[[]|err] st'] eqn:Hupd;
    [|unfold sql_update in Hupd; discriminate].
  simpl in Hfiles, Hrows. exists st'. split; [reflexivity|]. split; [exact Hfiles|].
  eapply Forall2_impl; [exact Hrows|]. intros row row'. cbv beta.
  destruct (bool_decide _); [|auto]. intros ->.
  split; [|split].
  - intros now t.
    apply (is_active_datetimes now (sets ∪ row) s e (Some t));
      rewrite lookup_union_sets; [now rewrite Hstart' | now rewrite Hend'].
  - now rewrite lookup_union_sets, Hdur.
  - intros key H1 H2 H3. now rewrite lookup_union_sets, Hother.
Qed.

Lemma process_schedule_sets_window_witness :
  ∃ st',
    process_schedule schedule_lib schedule_request two_asset_state
    = (Ok (Message "Yes!" "Successfully scheduled asset."), st')
    ∧ files st' = files two_asset_state.
Proof.
  destruct (process_schedule_sets_window schedule_lib schedule_request two_asset_state
              (datetime5 2013 2 1 8 0) (datetime5 2013 2 28 20 0))
    as (st' & H & Hfiles & _); try reflexivity; try discriminate.
  exists st'. split; [exact H|exact Hfiles].
Defined.

(** X21: the two legacy forms that update rows, [process_schedule] and
    [update_asset], never add or remove a row, never change an
    [asset_id] and never touch the disk; unless they answer "Yes!"
    they leave the state as it was. *)
Theorem legacy_forms_keep_rows lib req st :
  let keeps (run : result reply * state) :=
    files run.2 = files st
    ∧ (λ row : gmap string pyval, row !! "asset_id") <$> assets_table run.2
      = (λ row : gmap string pyval, row !! "asset_id") <$> assets_table st
    ∧ ((∀ message, run.1 ≠ Ok (Message "Yes!" message)) → run.2 = st) in
  keeps (process_schedule lib req st) ∧ keeps (update_asset lib req st).
Proof.
  assert (Hupd : ∀ (sets : gmap string pyval) asset_id message,
            sets !! "asset_id" = None →
            let run := (Ok (Message "Yes!" message),
                        (sql_update sets asset_id st).2) in
            files run.2 = files st
            ∧ (λ row : gmap string pyval, row !! "asset_id") <$> assets_table run.2
              = (λ row : gmap string pyval, row !! "asset_id") <$> assets_table st
            ∧ ((∀ message, run.1 ≠ Ok (Message "Yes!" message)) → run.2 = st)).
  { intros sets asset_id message Hsets run.
    destruct (sql_update_rows sets asset_id st Hsets) as (Hf & Hids & _).
    split; [exact Hf|]. split; [exact Hids|].
    intros Hno. exfalso. exact (Hno message eq_refl). }
  assert (Hsame : ∀ r : result reply,
            files (r, st).2 = files st
            ∧ (λ row : gmap string pyval, row !! "asset_id") <$> assets_table (r, st).2
              = (λ row : gmap string pyval, row !! "asset_id") <$> assets_table st
            ∧ ((∀ message, (r, st).1 ≠ Ok (Message "Yes!" message)) → (r, st).2 = st))
    by (intros r; simpl; auto).
  intros keeps. unfold keeps. split.
  - unfold process_schedule, mbind, M_bind, lift, mret, M_ret.
    destruct (_ && _ && _); [|apply Hsame].
    destruct (strptime lib _ _) as [s|]; [|apply Hsame].
    destruct (strptime lib _ _) as [e|]; [|apply Hsame].
    apply Hupd. reflexivity.
  - unfold update_asset, mbind, M_bind, lift, mret, M_ret.
    destruct (_ && _ && _ && _); [|apply Hsame].
    destruct (decode_utf8 lib _) as [name|]; [|apply Hsame].
    destruct (validate_uri _) as [valid|]; [|apply Hsame].
    destruct (_ && _); [apply Hsame|].
    apply Hupd. reflexivity.
Qed.

(** X22: an update form whose start or end does not parse, as when
    the dates are left out, clears the schedule: the update succeeds
    and every row with the id is inactive at every time afterwards.
    A URI is accepted when it passes the verification or contains the
    asset folder. *)
Theorem update_asset_clears_schedule lib req st name valid :
  strip (post_get req "asset_id") ≠ "" →
  strip (post_get req "name") ≠ "" →
  strip (post_get req "uri") ≠ "" →
  strip (post_get req "mimetype") ≠ "" →
  decode_utf8 lib (post_get req "name") = Ok name →
  validate_uri (strip (post_get req "uri")) = Ok valid →
  valid = true ∨ str_contains (asset_folder lib) (strip (post_get req "uri")) = true →
  strptime_or_none lib (post_get req "start") = PNone
  ∨ strptime_or_none lib (strip (post_get req "end")) = PNone →
  ∃ st',
    update_asset lib req st
    = (Ok (Message "Yes!" "Successfully updated asset."), st')
    ∧ Forall2 (λ row row' : gmap string pyval,
         if bool_decide (row !! "asset_id"
                         = Some (PStr (strip (post_get req "asset_id"))))
         then
           (∀ now at_time, is_active now row' at_time = Ok false)
           ∧ row' !! "asset_id" = row !! "asset_id"
           ∧ row' !! "name" = Some (PStr name)
         else row' = row)
        (assets_table st) (assets_table st').
Proof.
  intros Hi Hn Hu Hm Hdec Hvalid Hok Hnone.
  apply eqb_empty_false in Hi, Hn, Hu, Hm.
  unfold update_asset, mbind, M_bind, lift, mret, M_ret.
  rewrite Hi, Hn, Hu, Hm, Hdec, Hvalid. cbn [andb].
  assert (Hgate : negb valid
                  && negb (str_contains (asset_folder lib) (strip (post_get req "uri")))
                  = false).
  { destruct Hok as [-> | ->]; [reflexivity|apply andb_false_r]. }
  rewrite Hgate.
  set (start_date := strptime_or_none lib (post_get req "start")) in *.
  set (end_date := strptime_or_none lib (strip (post_get req "end"))) in *.
  set (sets := <["mimetype" := PStr (strip (post_get req "mimetype"))]> _).
  assert (Hsets : sets !! "asset_id" = None) by reflexivity.
  assert (Hstart : sets !! "start_date" = Some start_date) by reflexivity.
  assert (Hend : sets !! "end_date" = Some end_date) by reflexivity.
  assert (Hname : sets !! "name" = Some (PStr name)) by reflexivity.
  destruct (sql_update_rows sets (strip (post_get req "asset_id")) st Hsets)
    as (_ & _ & Hrows).
  clearbody sets.
  destruct (sql_update sets (strip (post_get req "asset_id")) st) as [[[]|err] st'] eqn:Hupd;
    [|unfold sql_update in Hupd; discriminate].
  simpl in Hrows. exists st'. split; [reflexivity|].
  eapply Forall2_impl; [exact Hrows|]. intros row row'. cbv beta.
  destruct (bool_decide _); [|auto]. intros ->.
  split; [|split].
  - intros now at_time. apply is_active_absent.
    destruct Hnone as [H0 | H0]; [left|right].
    + exists start_date. rewrite lookup_union_sets, Hstart.
      split; [reflexivity|left; exact H0].
    + exists start_date, end_date. rewrite !lookup_union_sets, Hstart, Hend.
      repeat split. left; exact H0.
  - now rewrite lookup_union_sets, Hsets.
  - now rewrite lookup_union_sets, Hname.
Qed.

Lemma update_asset_clears_schedule_witness :
  ∃ st',
    update_asset schedule_lib update_request two_asset_state
    = (Ok (Message "Yes!" "Successfully updated asset."), st').
Proof.
  destruct (update_asset_clears_schedule schedule_lib update_request two_asset_state
              "WireLoad site" true) as (st' & H & _);
    try reflexivity; try discriminate; [left; reflexivity | left; reflexivity|].
  exists st'. exact H.
Defined.

(** X23: the edit form of an id that no row has does not render: the
    handler raises [TypeError] on the missing row. *)
Theorem edit_asset_form_unknown_id lib asset_id st :
  Forall (λ row : gmap string pyval, row !! "asset_id" ≠ Some (PStr asset_id))
    (assets_table st) →
  edit_asset_form lib asset_id st = (Raise TypeError, st).
Proof.
  intros Hno. unfold edit_asset_form, select_by_id.
  assert (Hfind : List.find
            (λ row : gmap string pyval,
               bool_decide (row !! "asset_id" = Some (PStr asset_id)))
            (assets_table st) = None).
  { induction Hno as [|row l Hrow _ IH]; simpl; [reflexivity|].
    now rewrite bool_decide_eq_false_2. }
  now rewrite Hfind.
Qed.

Lemma edit_asset_form_unknown_id_witness :
  edit_asset_form demo_lib "no-such-id" two_asset_state
  = (Raise TypeError, two_asset_state).
Proof.
  apply edit_asset_form_unknown_id. repeat constructor; discriminate.
Defined.

(** ** URLs that do not parse, dated submissions, rows that do not compare *)

(** X24: on a string [sch://rest] whose scheme is http or https in any
    case, [validate_uri] raises [ValueError] exactly when the network
    location has one of the brackets [[] and []] without the other;
    otherwise it tells whether the network location is non-empty. *)
Theorem validate_uri_http sch rest :
  lower sch = "http" ∨ lower sch = "https" →
  validate_uri (sch ++ "://" ++ rest)
  = let nl := take_until "/?#" rest in
    if Bool.eqb (char_in "[" nl) (char_in "]" nl)
    then Ok (negb (String.eqb nl ""))
    else Raise ValueError.
Proof.
  intros Hsch. unfold validate_uri, urlparse.
  rewrite (urlsplit_http sch rest Hsch), parse_netloc_slashes. cbv zeta.
  destruct (Bool.eqb _ _); [|reflexivity]. simpl.
  destruct Hsch as [-> | ->]; reflexivity.
Qed.

Lemma validate_uri_http_witness :
  validate_uri "HTTP://[::1/logo.png" = Raise ValueError.
Proof.
  apply (validate_uri_http "HTTP" "[::1/logo.png"). left; reflexivity.
Defined.

Lemma parse_date_field_parsed lib data key (asset asset' : gmap string pyval) v d :
  parse_date_field lib data key asset = Ok asset' →
  get data key = Ok v → v ≠ "" →
  strptime lib (before_first "." v) iso_format = Ok d →
  asset' = <[key := PDatetime d]> asset.
Proof.
  unfold parse_date_field, mbind, result_bind. intros H Hv Hne Hd.
  apply eqb_empty_false in Hne. rewrite Hv, Hne, Hd in H. now injection H as <-.
Qed.

(** X25: an asset added through the API with a start and an end that
    parse is stored as the last row, and that row, as [fetch_assets]
    reads it back, is active exactly at the times strictly between
    the two parsed dates. The dates are parsed from the text before
    the first dot. *)
Theorem add_asset_window lib e req st st1 data start stop s e' :
  add_asset lib e req st = (Redirect "/", st1) →
  request_data lib req = Ok data →
  get data "start_date" = Ok start → start ≠ "" →
  get data "end_date" = Ok stop → stop ≠ "" →
  strptime lib (before_first "." start) iso_format = Ok s →
  strptime lib (before_first "." stop) iso_format = Ok e' →
  ∃ asset,
    assets_table st1 = (assets_table st ++ [asset])%list
    ∧ asset !! "start_date" = Some (PDatetime s)
    ∧ asset !! "end_date" = Some (PDatetime e')
    ∧ ∀ now t,
        is_active now (fetched_dict default_keys asset) (Some t)
        = Ok (dt_lt s t && dt_lt t e').
Proof.
  intros Hadd Hdata Hstart Hs Hstop He Hps Hpe.
  unfold add_asset, mbind, M_bind, sql_insert in Hadd.
  destruct (prepare_asset lib e req st) as [[asset|err] s1] eqn:Hprep; [|discriminate].
  injection Hadd as <-.
  destruct (prepare_asset_ok_table lib e req st asset s1 Hprep) as (Htable & _).
  apply prepare_asset_ok_steps in Hprep
    as (data' & name & mimetype & asset_id & uri & a3 & a4 & Hdata' & _ & _ & H4 & H5).
  rewrite Hdata in Hdata'. injection Hdata' as <-.
  apply (parse_date_field_parsed lib data "start_date" a3 a4 start s) in H4; auto.
  apply (parse_date_field_parsed lib data "end_date" a4 asset stop e') in H5; auto.
  subst asset a4.
  exists (<["end_date" := PDatetime e']> (<["start_date" := PDatetime s]> a3)).
  simpl. rewrite Htable. split; [reflexivity|].
  split; [now rewrite lookup_insert_ne, lookup_insert_eq by discriminate|].
  split; [apply lookup_insert_eq|].
  intros now t. apply (is_active_datetimes now _ s e' (Some t));
    rewrite fetched_dict_lookup.
  - rewrite bool_decide_eq_true_2
      by (unfold default_keys; rewrite list_elem_of_In; simpl; auto 10).
    now rewrite lookup_insert_ne, lookup_insert_eq by discriminate.
  - rewrite bool_decide_eq_true_2
      by (unfold default_keys; rewrite list_elem_of_In; simpl; auto 10).
    now rewrite lookup_insert_eq.
Qed.

Lemma add_asset_window_witness :
  ∃ asset,
    assets_table (add_asset schedule_lib demo_env dated_request two_asset_state).2
    = [unscheduled_asset; wireload_asset; asset]
    ∧ is_active (datetime5 2013 1 17 9 30) (fetched_dict default_keys asset)
        (Some (datetime5 2013 2 14 12 0)) = Ok true.
Proof.
  assert (Hadd : add_asset schedule_lib demo_env dated_request two_asset_state
                 = (Redirect "/",
                    (add_asset schedule_lib demo_env dated_request two_asset_state).2))
    by by_vm.
  destruct (add_asset_window schedule_lib demo_env dated_request two_asset_state
              (add_asset schedule_lib demo_env dated_request two_asset_state).2
              (PStr <$> POST dated_request)
              "2013-02-01T08:00:00.000Z" "2013-02-28T20:00:00.000Z"
              (datetime5 2013 2 1 8 0) (datetime5 2013 2 28 20 0) Hadd)
    as (asset & Htable & _ & _ & Hactive);
    first [reflexivity | discriminate | idtac].
  exists asset. split; [exact Htable|]. apply Hactive.
Defined.

Section BadRow.

Variable lib : platform.

Lemma loops_raise now good bad rest err :
  Forall scheduled_record good →
  is_active now bad None = Raise err →
  (∀ acc, playlist_loop lib now (good ++ bad :: rest)%list acc = Raise err)
  ∧ (∀ on off, grouped_loop now (good ++ bad :: rest)%list on off = Raise err)
  ∧ (∀ acc, api_assets_loop now (good ++ bad :: rest)%list acc = Raise err).
Proof.
  intros Hgood Hbad.
  induction Hgood as [|asset good Hrec _ (IH1 & IH2 & IH3)]; simpl.
  - rewrite Hbad. auto.
  - destruct (scheduled_record_active now asset Hrec)
      as [(_ & Hia & s & e & Hs & He) | (_ & Hia)]; rewrite Hia; simpl.
    + repeat split; auto.
      intros acc. unfold getitem. rewrite Hs. simpl.
      rewrite lookup_insert_ne, He by discriminate. simpl. apply IH1.
    + repeat split; auto.
Qed.

(** X26: one fetched asset on which [is_active] raises, for instance a
    row whose start_date is a text that is not empty, takes the three
    readers down with it: the playlist, the dashboard groups and the
    API list all raise that error and return nothing, however many
    well-formed assets come before or after. *)
Theorem readers_raise_on_bad_row e st good bad rest err :
  fetch_assets lib None "name" st = (Ok (good ++ bad :: rest)%list, st) →
  Forall scheduled_record good →
  is_active (get_current_time e) bad None = Raise err →
  get_playlist lib e st = (Raise err, st)
  ∧ get_assets_grouped lib e st = (Raise err, st)
  ∧ api_assets lib e st = (Raise err, st).
Proof.
  intros Hfetch Hgood Hbad.
  destruct (loops_raise (get_current_time e) good bad rest err Hgood Hbad)
    as (H1 & H2 & H3).
  unfold get_playlist, get_assets_grouped, api_assets, mbind, M_bind, lift.
  rewrite Hfetch, H1, H2, H3. auto.
Qed.

End BadRow.

Lemma readers_raise_on_bad_row_witness :
  let bad : gmap string pyval :=
    <["start_date" := PStr "2013-01-16 00:00:00"]> wireload_asset in
  get_playlist demo_lib demo_env (mk_state ∅ [wireload_asset; bad; unscheduled_asset])
  = (Raise TypeError, mk_state ∅ [wireload_asset; bad; unscheduled_asset]).
Proof.
  intros bad.
  refine (proj1 (readers_raise_on_bad_row demo_lib demo_env
                   (mk_state ∅ [wireload_asset; bad; unscheduled_asset])
                   [wireload_asset] bad [unscheduled_asset] TypeError
                   eq_refl _ eq_refl)).
  repeat constructor.
  exists (PDatetime (datetime5 2013 1 16 0 0)), (PDatetime (datetime5 2013 1 19 23 59)).
  repeat split; try reflexivity; left; eexists; reflexivity.
Defined.
